(** * Payroll record keeper: the Express server, embedded and verified

    The server keeps employees and payroll entries in one JSON file and
    serves them over HTTP.  Every handler is synchronous: it reads the whole
    document, changes it in memory and writes it back.  This development
    embeds the server's functions as Rocq functions over an explicit [World]
    (the data file with its read and write history) and proves the
    properties the specification states about them.

    Conventions of the embedding.
    - A JavaScript value is a [jsval]; a Number is a binary64 [float]
      (Rocq's primitive floats), so [-], [<=], [===] and [++] are the IEEE
      operations the engine performs.
    - The engine's conversions between strings and numbers ([Number(s)],
      [String(x)], [parseFloat], [parseInt], [toFixed]) are the fields of the
      class [Engine].  The handlers are written against the class, and the
      theorems about them hold for every engine.  [Ecma.engine] is a
      reference implementation used to run the handlers on concrete requests.
    - Values read from the file or from a request body come out of
      [JSON.parse]: two arrays or two objects are never the same reference,
      so [===] between them is [false], and no value is a function, so an
      object with an own [toString] member cannot be converted to a string
      or a number: the conversion throws a [TypeError] ([None]).
    - An exception thrown by a handler ends in the error-handling middleware,
      which answers 500.
    - A request is one whose body [express.json()] has parsed to an object.
    - The data file holds a [Document]; serialisation is the identity on
      it.  A write that fails leaves the file as it was. *)

From Stdlib Require Import ZArith NArith List Sorted String Ascii Bool Lia.
From Stdlib Require Import Floats DecimalString DecimalN.
Import ListNotations.

Open Scope string_scope.
Open Scope bool_scope.

(** ** JavaScript values *)

#[local] Set Warnings "-register-all".

Inductive jsval : Type :=
| JUndefined
| JNull
| JBool (b : bool)
| JNum (x : float)
| JStr (s : string)
| JArr (items : list jsval)
| JObj (props : list (string * jsval)).

(** A parsed JSON object: its own properties, looked up by name.  A missing
    property reads as [undefined]: none of the names the handlers read is
    inherited from [Object.prototype]. *)
Definition object := list (string * jsval).

Fixpoint get (key : string) (o : object) : jsval :=
  match o with
  | [] => JUndefined
  | (k, v) :: rest => if String.eqb k key then v else get key rest
  end.

(** [Object.hasOwn(o, key)] *)
Fixpoint has_own (key : string) (o : object) : bool :=
  match o with
  | [] => false
  | (k, _) :: rest => String.eqb k key || has_own key rest
  end.

(** A destructuring default, [{ name = d } = o]: [d] replaces [undefined]
    and nothing else. *)
Definition default_to (d v : jsval) : jsval :=
  match v with
  | JUndefined => d
  | _ => v
  end.

(** [ToBoolean]: [undefined], [null], [false], [+0], [-0], [NaN] and the
    empty string are falsy; everything else, arrays and objects too, is
    truthy. *)
Definition truthy (v : jsval) : bool :=
  match v with
  | JUndefined | JNull => false
  | JBool b => b
  | JNum x => negb (PrimFloat.is_zero x || PrimFloat.is_nan x)
  | JStr s => negb (String.eqb s "")
  | JArr _ | JObj _ => true
  end.

(** [a === b] on two Numbers. *)
Definition num_eq (x y : float) : bool := PrimFloat.eqb x y.

(** [a === b].  Arrays and objects compare by reference, and no two parsed
    values share one. *)
Definition strict_eq (a b : jsval) : bool :=
  match a, b with
  | JUndefined, JUndefined => true
  | JNull, JNull => true
  | JBool x, JBool y => Bool.eqb x y
  | JNum x, JNum y => num_eq x y
  | JStr x, JStr y => String.eqb x y
  | _, _ => false
  end.


(** ** The engine's numeric conversions *)

Class Engine : Type := {
  (** [Number(s)] for a string [s] (StringToNumber) *)
  StringToNumber : string -> float;
  (** [String(x)] for a number [x] (Number::toString, radix 10) *)
  NumberToString : float -> string;
  (** [parseFloat(s)] for a string [s] *)
  parseFloat_string : string -> float;
  (** [parseInt(s)] for a string [s], no radix given *)
  parseInt_string : string -> float;
  (** [x.toFixed(digits)] *)
  toFixed : float -> nat -> string
}.

Section Conversions.
Context {E : Engine}.

(** [Array.prototype.join(",")] over the already converted items. *)
Fixpoint join_comma (parts : list string) : string :=
  match parts with
  | [] => ""
  | [p] => p
  | p :: rest => p ++ "," ++ join_comma rest
  end.

(** [ToString].  An array joins its items with commas, [undefined] and
    [null] items giving the empty string.  An object prints as
    [[object Object]] through [Object.prototype.toString], unless an own
    member hides that method: a parsed member is not callable, and the
    conversion throws. *)
Fixpoint ToString (v : jsval) : option string :=
  match v with
  | JUndefined => Some "undefined"
  | JNull => Some "null"
  | JBool true => Some "true"
  | JBool false => Some "false"
  | JNum x => Some (NumberToString x)
  | JStr s => Some s
  | JArr items =>
      option_map join_comma
        ((fix pieces (l : list jsval) : option (list string) :=
            match l with
            | [] => Some []
            | item :: rest =>
                match match item with
                      | JUndefined | JNull => Some ""
                      | _ => ToString item
                      end, pieces rest with
                | Some piece, Some others => Some (piece :: others)
                | _, _ => None
                end
            end) items)
  | JObj props =>
      if has_own "toString" props then None else Some "[object Object]"
  end.

(** [ToNumber].  Arrays and objects go through their string form. *)
Definition ToNumber (v : jsval) : option float :=
  match v with
  | JUndefined => Some nan
  | JNull => Some zero
  | JBool true => Some one
  | JBool false => Some zero
  | JNum x => Some x
  | JStr s => Some (StringToNumber s)
  | JArr _ | JObj _ => option_map StringToNumber (ToString v)
  end.

(** The global [isNaN(v)]. *)
Definition isNaN (v : jsval) : option bool :=
  option_map PrimFloat.is_nan (ToNumber v).

(** [v <= 0] and [v < 0]: the right operand is a Number, so the left one is
    converted with [ToNumber]; a comparison with [NaN] is [false]. *)
Definition le_zero (v : jsval) : option bool :=
  option_map (fun x => PrimFloat.leb x zero) (ToNumber v).

Definition lt_zero (v : jsval) : option bool :=
  option_map (fun x => PrimFloat.ltb x zero) (ToNumber v).

(** The globals [parseFloat(v)] and [parseInt(v)]: both convert their
    argument to a string first. *)
Definition parseFloat (v : jsval) : option float :=
  option_map parseFloat_string (ToString v).

Definition parseInt (v : jsval) : option float :=
  option_map parseInt_string (ToString v).

(** [a || b] when evaluating an operand may throw: [b] is evaluated only
    when [a] is [false]. *)
Definition or_else (a b : option bool) : option bool :=
  match a with
  | Some true => Some true
  | Some false => b
  | None => None
  end.
End Conversions.

(** ** The data model *)

Module Employee.
Record t : Type := mk {
  id : float;
  employee_code : jsval;
  first_name : jsval;
  last_name : jsval;
  designation : jsval;
  department : jsval;
  email : jsval;
  bank_account : jsval;
  salary : float;
  created_at : string
}.
End Employee.

Module Payroll.
Record t : Type := mk {
  id : float;
  employee_id : float;
  pay_period_start : jsval;
  pay_period_end : jsval;
  gross_pay : float;
  deductions : float;
  net_pay : float;
  created_at : string
}.
End Payroll.

Record Document : Type := mkDocument {
  employees : list Employee.t;
  payrolls : list Payroll.t;
  nextEmployeeId : float;
  nextPayrollId : float
}.

(** The literal both [initializeDataFile] and [readData] build. *)
Definition emptyDocument : Document :=
  {| employees := []; payrolls := []; nextEmployeeId := 1; nextPayrollId := 1 |}.

(** ** The data file *)

(** What [DATA_FILE] holds: nothing readable ([fs.readFileSync] throws), text
    that is not JSON ([JSON.parse] throws), or a document. *)
Inductive FileState : Type :=
| Unreadable
| Unparsable (text : string)
| Holds (d : Document).

(** The file, whether the next write to it succeeds, how many times it has
    been read and every document written to it, oldest first. *)
Record World : Type := mkWorld {
  file : FileState;
  writable : bool;
  reads : nat;
  writes : list Document
}.

(** [readData]: the [catch] branch returns the empty document. *)
Definition readData (w : World) : Document * World :=
  let w' := {| file := file w; writable := writable w;
               reads := S (reads w); writes := writes w |} in
  match file w with
  | Holds d => (d, w')
  | Unreadable | Unparsable _ => (emptyDocument, w')
  end.

(** [writeData]: [true] when the file was overwritten, [false] when
    [fs.writeFileSync] threw. *)
Definition writeData (data : Document) (w : World) : bool * World :=
  if writable w
  then (true, {| file := Holds data; writable := writable w;
                 reads := reads w; writes := writes w ++ [data] |})
  else (false, w).

(** [initializeDataFile]: writes the empty document when [fs.existsSync]
    says that no file exists ([file_exists] is its answer), and does nothing
    otherwise.  The write is not guarded, so a failure ends the process
    ([None]). *)
Definition initializeDataFile (file_exists : bool) (w : World) : option World :=
  if negb file_exists
  then
    let initialData :=
      {| employees := []; payrolls := []; nextEmployeeId := 1;
         nextPayrollId := 1 |} in
    if writable w
    then Some {| file := Holds initialData; writable := writable w;
                 reads := reads w; writes := writes w ++ [initialData] |}
    else None
  else Some w.

(** ** Requests and responses *)

Record Request : Type := mkRequest {
  (** [req.headers.authorization], [None] when the header is missing *)
  authorization : option string;
  (** [req.body] *)
  body : object;
  (** the route parameter, [req.params.id] or [req.params.payroll_id] *)
  param : string;
  (** what [new Date().toISOString()] returns while the request is served *)
  now : string
}.

(** The employee fields a payslip shows. *)
Record EmployeeInfo : Type := mkEmployeeInfo {
  info_id : float;
  info_employee_code : jsval;
  info_first_name : jsval;
  info_last_name : jsval;
  info_designation : jsval;
  info_department : jsval;
  info_email : jsval;
  info_bank_account : jsval
}.

Inductive Payload : Type :=
| ErrorBody (error : string)
| MessageBody (message : string)
| HealthBody (timestamp : string)
| EmployeeBody (e : Employee.t)
| PayrollBody (p : Payroll.t)
| EmployeesBody (l : list Employee.t)
| PayrollsBody (l : list Payroll.t)
| PayslipBody (payroll : Payroll.t) (employee : EmployeeInfo).

Record Response : Type := mkResponse {
  status : Z;
  payload : Payload
}.

(** [res.json(x)] answers with status 200; [res.status(n).json(x)] with [n]. *)
Definition json (x : Payload) : Response := {| status := 200; payload := x |}.
Definition status_json (n : Z) (x : Payload) : Response :=
  {| status := n; payload := x |}.

(** ** Array methods *)

(** [s.split(' ')]: always at least one piece. *)
Fixpoint split (sep : ascii) (s : string) : list string :=
  match s with
  | EmptyString => [EmptyString]
  | String c rest =>
      if Ascii.eqb c sep then EmptyString :: split sep rest
      else match split sep rest with
           | [] => [String c EmptyString]
           | piece :: pieces => String c piece :: pieces
           end
  end.

(** [a[i]] on an array of strings: [undefined] past the end. *)
Definition index (pieces : list string) (i : nat) : jsval :=
  match nth_error pieces i with
  | Some s => JStr s
  | None => JUndefined
  end.

(** [a.findIndex(p)]: [None] stands for [-1]. *)
Fixpoint findIndex {A : Type} (p : A -> bool) (l : list A) : option nat :=
  match l with
  | [] => None
  | x :: rest => if p x then Some 0%nat else option_map S (findIndex p rest)
  end.

(** [a.splice(i, 1)]: the array without its element at [i]. *)
Definition splice1 {A : Type} (i : nat) (l : list A) : list A :=
  firstn i l ++ skipn (S i) l.

(** [a.find(p)] when the callback may throw: the callback runs on the
    elements in order, up to the first it accepts. *)
Fixpoint find_may_throw {A : Type} (p : A -> option bool) (l : list A)
    : option (option A) :=
  match l with
  | [] => Some None
  | x :: rest =>
      match p x with
      | None => None
      | Some true => Some (Some x)
      | Some false => find_may_throw p rest
      end
  end.

(** ** Exceptions *)

(** The error-handling middleware,
    [res.status(500).json({ error: 'Internal server error' })]. *)
Definition internal_server_error : Response :=
  status_json 500 (ErrorBody "Internal server error").

(** Evaluating [e] inside a handler: when it throws, the handler is left for
    the error-handling middleware, with the world [w] as it is then. *)
Definition evaluating {A : Type} (e : option A) (w : World)
    (k : A -> Response * World) : Response * World :=
  match e with
  | Some x => k x
  | None => (internal_server_error, w)
  end.

Notation "'let!' x ':=' e 'within' w 'in' k" :=
  (evaluating e w (fun x => k))
  (at level 10, x name, w at level 0, k at level 200).

(** ** The server *)

Section Server.
Context {E : Engine}.

(** [process.env.ADMIN_KEY], [None] when the variable is not set. *)
Variable env_ADMIN_KEY : option string.

(** [process.env.ADMIN_KEY || 'admin123']: an unset or empty variable gives
    the default key. *)
Definition ADMIN_KEY : string :=
  match env_ADMIN_KEY with
  | Some key => if truthy (JStr key) then key else "admin123"
  | None => "admin123"
  end.

(** [authHeader && authHeader.split(' ')[1]] *)
Definition bearer_token (authHeader : option string) : jsval :=
  match authHeader with
  | None => JUndefined
  | Some h => if truthy (JStr h) then index (split " "%char h) 1 else JStr h
  end.

(** The condition under which [authenticateAdmin] calls [next()]:
    the negation of [!token || token !== ADMIN_KEY]. *)
Definition authorized (req : Request) : bool :=
  let token := bearer_token (authorization req) in
  negb (negb (truthy token) || negb (strict_eq token (JStr ADMIN_KEY))).

(** [authenticateAdmin(req, res, next)] *)
Definition authenticateAdmin (req : Request)
    (next : World -> Response * World) (w : World) : Response * World :=
  let authHeader := authorization req in
  let token := bearer_token authHeader in
  if negb (truthy token) || negb (strict_eq token (JStr ADMIN_KEY))
  then (status_json 401 (ErrorBody "Unauthorized. Valid API key required."), w)
  else next w.

(** [calculatePayroll(grossPay, deductions = 0)]; [None] is an omitted
    second argument. *)
Record NetPay : Type := { netPay : float }.

Definition calculatePayroll (grossPay : float) (deductions : option float)
    : NetPay :=
  let deductions := match deductions with Some d => d | None => zero end in
  let netPay := PrimFloat.sub grossPay deductions in
  {| netPay := netPay |}.

(** [GET /api/health] *)
Definition get_health (req : Request) (w : World) : Response * World :=
  (json (HealthBody (now req)), w).

(** [GET /api/employees] *)
Definition get_employees (req : Request) (w : World) : Response * World :=
  let (data, w) := readData w in
  (json (EmployeesBody (employees data)), w).

(** [POST /api/employees], the handler behind [authenticateAdmin]. *)
Definition post_employees (req : Request) (w : World) : Response * World :=
  let employee_code := get "employee_code" (body req) in
  let first_name := get "first_name" (body req) in
  let last_name := get "last_name" (body req) in
  let designation := get "designation" (body req) in
  let department := get "department" (body req) in
  let email := get "email" (body req) in
  let bank_account := get "bank_account" (body req) in
  let salary := get "salary" (body req) in
  if negb (truthy employee_code) || negb (truthy first_name)
     || negb (truthy last_name) || negb (truthy designation)
     || negb (truthy department) || negb (truthy email)
     || negb (truthy bank_account) || negb (truthy salary)
  then (status_json 400 (ErrorBody "All fields are required"), w)
  else
  let! not_positive := or_else (isNaN salary) (le_zero salary) within w in
  if not_positive
  then (status_json 400 (ErrorBody "Salary must be a positive number"), w)
  else
    let (data, w) := readData w in
    let existingEmployee :=
      find (fun emp => strict_eq (Employee.employee_code emp) employee_code)
           (employees data) in
    match existingEmployee with
    | Some _ =>
        (status_json 400 (ErrorBody "Employee code already exists"), w)
    | None =>
        let! salary_number := parseFloat salary within w in
        let newEmployee :=
          {| Employee.id := nextEmployeeId data;
             Employee.employee_code := employee_code;
             Employee.first_name := first_name;
             Employee.last_name := last_name;
             Employee.designation := designation;
             Employee.department := department;
             Employee.email := email;
             Employee.bank_account := bank_account;
             Employee.salary := salary_number;
             Employee.created_at := now req |} in
        let data :=
          {| employees := employees data ++ [newEmployee];
             payrolls := payrolls data;
             nextEmployeeId := PrimFloat.add (nextEmployeeId data) 1;
             nextPayrollId := nextPayrollId data |} in
        let (saved, w) := writeData data w in
        if saved
        then (status_json 201 (EmployeeBody newEmployee), w)
        else (status_json 500 (ErrorBody "Failed to save employee data"), w)
    end.

(** [GET /api/payrolls] *)
Definition get_payrolls (req : Request) (w : World) : Response * World :=
  let (data, w) := readData w in
  (json (PayrollsBody (payrolls data)), w).

(** [POST /api/payrolls], the handler behind [authenticateAdmin].  The
    destructuring default [deductions = 0] replaces [undefined] only.  The
    conversions are pure, so [parseFloat(gross_pay)] and
    [parseFloat(deductions)], which the source writes twice, are evaluated
    once. *)
Definition post_payrolls (req : Request) (w : World) : Response * World :=
  let employee_id := get "employee_id" (body req) in
  let pay_period_start := get "pay_period_start" (body req) in
  let pay_period_end := get "pay_period_end" (body req) in
  let gross_pay := get "gross_pay" (body req) in
  let deductions := default_to (JNum 0) (get "deductions" (body req)) in
  if negb (truthy employee_id) || negb (truthy pay_period_start)
     || negb (truthy pay_period_end) || negb (truthy gross_pay)
  then (status_json 400
          (ErrorBody "employee_id, pay_period_start, pay_period_end, and gross_pay are required"),
        w)
  else
  let! not_positive := or_else (isNaN gross_pay) (le_zero gross_pay) within w in
  if not_positive
  then (status_json 400 (ErrorBody "Gross pay must be a positive number"), w)
  else
  let! negative := or_else (isNaN deductions) (lt_zero deductions) within w in
  if negative
  then (status_json 400 (ErrorBody "Deductions must be a non-negative number"), w)
  else
    let (data, w) := readData w in
    let! employee :=
      find_may_throw
        (fun emp => option_map (num_eq (Employee.id emp)) (parseInt employee_id))
        (employees data) within w in
    match employee with
    | None => (status_json 404 (ErrorBody "Employee not found"), w)
    | Some _ =>
        let! gross := parseFloat gross_pay within w in
        let! deducted := parseFloat deductions within w in
        let netPay := netPay (calculatePayroll gross (Some deducted)) in
        let! employee_number := parseInt employee_id within w in
        let newPayroll :=
          {| Payroll.id := nextPayrollId data;
             Payroll.employee_id := employee_number;
             Payroll.pay_period_start := pay_period_start;
             Payroll.pay_period_end := pay_period_end;
             Payroll.gross_pay := gross;
             Payroll.deductions := deducted;
             Payroll.net_pay := parseFloat_string (toFixed netPay 2);
             Payroll.created_at := now req |} in
        let data :=
          {| employees := employees data;
             payrolls := payrolls data ++ [newPayroll];
             nextEmployeeId := nextEmployeeId data;
             nextPayrollId := PrimFloat.add (nextPayrollId data) 1 |} in
        let (saved, w) := writeData data w in
        if saved
        then (status_json 201 (PayrollBody newPayroll), w)
        else (status_json 500 (ErrorBody "Failed to save payroll data"), w)
    end.

(** [GET /api/payslip/:payroll_id] *)
Definition get_payslip (req : Request) (w : World) : Response * World :=
  let payrollId := parseInt_string (param req) in
  let (data, w) := readData w in
  match find (fun p => num_eq (Payroll.id p) payrollId) (payrolls data) with
  | None => (status_json 404 (ErrorBody "Payroll entry not found"), w)
  | Some payroll =>
      match find (fun emp => num_eq (Employee.id emp) (Payroll.employee_id payroll))
                 (employees data) with
      | None =>
          (status_json 404 (ErrorBody "Employee not found for this payroll entry"), w)
      | Some employee =>
          let payslip :=
            PayslipBody payroll
              {| info_id := Employee.id employee;
                 info_employee_code := Employee.employee_code employee;
                 info_first_name := Employee.first_name employee;
                 info_last_name := Employee.last_name employee;
                 info_designation := Employee.designation employee;
                 info_department := Employee.department employee;
                 info_email := Employee.email employee;
                 info_bank_account := Employee.bank_account employee |} in
          (json payslip, w)
      end
  end.

(** [DELETE /api/employees/:id], the handler behind [authenticateAdmin]. *)
Definition delete_employee (req : Request) (w : World) : Response * World :=
  let employeeId := parseInt_string (param req) in
  let (data, w) := readData w in
  match findIndex (fun emp => num_eq (Employee.id emp) employeeId)
                  (employees data) with
  | None => (status_json 404 (ErrorBody "Employee not found"), w)
  | Some employeeIndex =>
      let data :=
        {| employees := splice1 employeeIndex (employees data);
           payrolls :=
             filter (fun p => negb (num_eq (Payroll.employee_id p) employeeId))
                    (payrolls data);
           nextEmployeeId := nextEmployeeId data;
           nextPayrollId := nextPayrollId data |} in
      let (saved, w) := writeData data w in
      if saved
      then (json (MessageBody "Employee and associated payroll entries deleted successfully"), w)
      else (status_json 500 (ErrorBody "Failed to delete employee data"), w)
  end.

(** The routes the application registers, and the 404 handler behind
    them. *)
Inductive Route : Type :=
| GetHealth
| GetEmployees
| PostEmployees
| GetPayrolls
| PostPayrolls
| GetPayslip
| DeleteEmployee
| Unmatched.

Definition serve (r : Route) (req : Request) (w : World) : Response * World :=
  match r with
  | GetHealth => get_health req w
  | GetEmployees => get_employees req w
  | PostEmployees => authenticateAdmin req (post_employees req) w
  | GetPayrolls => get_payrolls req w
  | PostPayrolls => authenticateAdmin req (post_payrolls req) w
  | GetPayslip => get_payslip req w
  | DeleteEmployee => authenticateAdmin req (delete_employee req) w
  | Unmatched => (status_json 404 (ErrorBody "Endpoint not found"), w)
  end.

(** The routes guarded by [authenticateAdmin]. *)
Definition protected (r : Route) : bool :=
  match r with
  | PostEmployees | PostPayrolls | DeleteEmployee => true
  | _ => false
  end.
End Server.

(** ** A reference engine

    The conversions of ECMA-262, computed exactly: a finite double is the
    rational [m * 2^e] that [Prim2SF] decodes, a decimal literal is the
    rational [mantissa * 10^exp10], and rounding a rational to a double is
    IEEE division of two exact integers ([SFdiv]). *)

Module Ecma.
Local Open Scope Z_scope.

(** *** Scanning *)

Definition digit_of (c : ascii) : option (Decimal.uint -> Decimal.uint) :=
  match c with
  | "0"%char => Some Decimal.D0
  | "1"%char => Some Decimal.D1
  | "2"%char => Some Decimal.D2
  | "3"%char => Some Decimal.D3
  | "4"%char => Some Decimal.D4
  | "5"%char => Some Decimal.D5
  | "6"%char => Some Decimal.D6
  | "7"%char => Some Decimal.D7
  | "8"%char => Some Decimal.D8
  | "9"%char => Some Decimal.D9
  | _ => None
  end.

(** The longest run of decimal digits at the head of [s], and what follows
    it. *)
Fixpoint take_digits (s : string) : Decimal.uint * string :=
  match s with
  | EmptyString => (Decimal.Nil, s)
  | String c rest =>
      match digit_of c with
      | Some d => let (ds, rest') := take_digits rest in (d ds, rest')
      | None => (Decimal.Nil, s)
      end
  end.

Definition hex_digit_of (c : ascii) : option Z :=
  let n := Z.of_nat (nat_of_ascii c) in
  if (48 <=? n) && (n <=? 57) then Some (n - 48)
  else if (97 <=? n) && (n <=? 102) then Some (n - 87)
  else if (65 <=? n) && (n <=? 70) then Some (n - 55)
  else None.

(** The longest run of digits of [radix] at the head of [s]: their value
    on top of [acc], how many there are, and what follows. *)
Fixpoint take_radix (radix : Z) (s : string) (acc : Z) (count : nat)
    : Z * nat * string :=
  match s with
  | EmptyString => (acc, count, s)
  | String c rest =>
      match hex_digit_of c with
      | Some d =>
          if d <? radix then take_radix radix rest (acc * radix + d) (S count)
          else (acc, count, s)
      | None => (acc, count, s)
      end
  end.

(** White space and line terminators, in UTF-8: TAB, LF, VT, FF, CR, SP,
    U+00A0, U+1680, U+2000..U+200A, U+2028, U+2029, U+202F, U+205F, U+3000
    and U+FEFF. *)
Definition ws1 (a : nat) : bool :=
  ((9 <=? a) && (a <=? 13) || (a =? 32))%nat.
Definition ws2 (a b : nat) : bool :=
  ((a =? 194) && (b =? 160))%nat.
Definition ws3 (a b c : nat) : bool :=
  ((a =? 225) && (b =? 154) && (c =? 128)
   || (a =? 226) && (b =? 128)
      && ((128 <=? c) && (c <=? 138) || (c =? 168) || (c =? 169) || (c =? 175))
   || (a =? 226) && (b =? 129) && (c =? 159)
   || (a =? 227) && (b =? 128) && (c =? 128)
   || (a =? 239) && (b =? 187) && (c =? 191))%nat.

Fixpoint skip_ws (s : string) : string :=
  match s with
  | String a rest1 =>
      if ws1 (nat_of_ascii a) then skip_ws rest1
      else match rest1 with
           | String b rest2 =>
               if ws2 (nat_of_ascii a) (nat_of_ascii b) then skip_ws rest2
               else match rest2 with
                    | String c rest3 =>
                        if ws3 (nat_of_ascii a) (nat_of_ascii b) (nat_of_ascii c)
                        then skip_ws rest3 else s
                    | EmptyString => s
                    end
           | EmptyString => s
           end
  | EmptyString => s
  end.

Fixpoint strip_prefix (p s : string) : option string :=
  match p, s with
  | EmptyString, _ => Some s
  | String a p', String b s' => if Ascii.eqb a b then strip_prefix p' s' else None
  | String _ _, EmptyString => None
  end.

Definition scan_sign (s : string) : bool * string :=
  match s with
  | String "-"%char rest => (true, rest)
  | String "+"%char rest => (false, rest)
  | _ => (false, s)
  end.

(** *** Rounding a rational to a double *)

(** The Number value of [num / den], negated when [neg]: round to nearest,
    ties to even, overflow to infinity. *)
Definition nearest (neg : bool) (num den : Z) : float :=
  match num, den with
  | Zpos n, Zpos d =>
      SF2Prim (SFdiv prec emax (S754_finite neg n 0) (S754_finite false d 0))
  | _, _ => if neg then neg_zero else zero
  end.

(** The Number value of [mantissa * 10^exp10]. *)
Definition decimal_value (neg : bool) (mantissa : N) (exp10 : Z) : float :=
  if (0 <=? exp10)%Z
  then nearest neg (Z.of_N mantissa * 10 ^ exp10) 1
  else nearest neg (Z.of_N mantissa) (10 ^ (- exp10)).

(** *** Reading numbers *)

Inductive scanned : Type :=
| NotANumber
| Infinite (neg : bool)
| Finite (neg : bool) (mantissa : N) (exp10 : Z).

Definition value_of (r : scanned) : float :=
  match r with
  | NotANumber => nan
  | Infinite neg => if neg then neg_infinity else infinity
  | Finite neg mantissa exp10 => decimal_value neg mantissa exp10
  end.

(** ExponentPart: [e] or [E], an optional sign and at least one digit;
    otherwise nothing is consumed. *)
Definition scan_exponent (s : string) : Z * string :=
  match s with
  | String c rest =>
      if Ascii.eqb c "e" || Ascii.eqb c "E"
      then let (neg, rest1) := scan_sign rest in
           match take_digits rest1 with
           | (Decimal.Nil, _) => (0%Z, s)
           | (ds, rest2) =>
               let e := Z.of_N (N.of_uint ds) in
               ((if neg then - e else e)%Z, rest2)
           end
      else (0%Z, s)
  | EmptyString => (0%Z, s)
  end.

(** The longest prefix that is a StrDecimalLiteral, and what follows it. *)
Definition scan_decimal (s : string) : scanned * string :=
  let (neg, s1) := scan_sign s in
  match strip_prefix "Infinity" s1 with
  | Some rest => (Infinite neg, rest)
  | None =>
      let (ip, rest) := take_digits s1 in
      match rest with
      | String "."%char rest1 =>
          let (fp, rest2) := take_digits rest1 in
          match ip, fp with
          | Decimal.Nil, Decimal.Nil => (NotANumber, s)
          | _, _ =>
              let (e, rest3) := scan_exponent rest2 in
              let digits := Decimal.nb_digits fp in
              (Finite neg (N.of_uint ip * 10 ^ N.of_nat digits + N.of_uint fp)
                      (e - Z.of_nat digits),
               rest3)
          end
      | _ =>
          match ip with
          | Decimal.Nil => (NotANumber, s)
          | _ => let (e, rest3) := scan_exponent rest in
                 (Finite neg (N.of_uint ip) e, rest3)
          end
      end
  end.

(** [parseFloat(s)]: leading white space is skipped, the longest decimal
    literal is read and the rest is ignored. *)
Definition parseFloat_string (s : string) : float :=
  value_of (fst (scan_decimal (skip_ws s))).

(** [0x], [0o] and [0b] literals: no sign, at least one digit. *)
Definition scan_nondecimal (s : string) : option (Z * string) :=
  match s with
  | String "0"%char (String c rest) =>
      let radix :=
        if Ascii.eqb c "x" || Ascii.eqb c "X" then 16%Z
        else if Ascii.eqb c "o" || Ascii.eqb c "O" then 8%Z
        else if Ascii.eqb c "b" || Ascii.eqb c "B" then 2%Z
        else 0%Z in
      match take_radix radix rest 0 0 with
      | (_, O, _) => None
      | (v, _, rest') => Some (v, rest')
      end
  | _ => None
  end.

(** [Number(s)]: the whole string, white space apart, is a numeric literal;
    the empty string is [+0]. *)
Definition StringToNumber (s : string) : float :=
  let t := skip_ws s in
  match t with
  | EmptyString => zero
  | _ =>
      match scan_nondecimal t with
      | Some (v, rest) =>
          match skip_ws rest with
          | EmptyString => nearest false v 1
          | _ => nan
          end
      | None =>
          let (r, rest) := scan_decimal t in
          match skip_ws rest with
          | EmptyString => value_of r
          | _ => nan
          end
      end
  end.

(** [parseInt(s)]: white space, a sign, an optional [0x] and the longest
    run of digits; [NaN] when there is no digit. *)
Definition parseInt_string (s : string) : float :=
  let (neg, t) := scan_sign (skip_ws s) in
  let (radix, t) :=
    match t with
    | String "0"%char (String c rest) =>
        if Ascii.eqb c "x" || Ascii.eqb c "X" then (16%Z, rest) else (10%Z, t)
    | _ => (10%Z, t)
    end in
  match take_radix radix t 0 0 with
  | (_, O, _) => nan
  | (v, _, _) => nearest neg v 1
  end.

(** *** Printing numbers *)

(** The decimal digits of [n]; [0] prints as one digit. *)
Definition digits (n : N) : string :=
  DecimalString.NilZero.string_of_uint (N.to_uint n).

Fixpoint zeros (n : nat) : string :=
  match n with
  | O => EmptyString
  | S n' => String "0" (zeros n')
  end.

(** [x * 10^q] for the finite [x = m * 2^e], as a fraction of two positive
    integers. *)
Definition scaled (m : positive) (e q : Z) : Z * Z :=
  (Zpos m * 2 ^ Z.max e 0 * 10 ^ Z.max q 0,
   2 ^ Z.max (- e) 0 * 10 ^ Z.max (- q) 0).

(** [m * 2^e < 10^n] *)
Definition below_pow10 (m : positive) (e n : Z) : bool :=
  let (p, q) := scaled m e (- n) in p <? q.

(** The [n] with [10^(n-1) <= m * 2^e < 10^n], searched upwards from an
    estimate that is at most one too small. *)
Definition decimal_exponent (m : positive) (e : Z) : Z :=
  let n0 := (Z.log2 (Zpos m) + e) * 30103 / 100000 - 1 in
  if below_pow10 m e n0 then n0
  else if below_pow10 m e (n0 + 1) then n0 + 1
  else if below_pow10 m e (n0 + 2) then n0 + 2
  else if below_pow10 m e (n0 + 3) then n0 + 3
  else n0 + 4.

(** Does the decimal [s * 10^q] read back as [x]? *)
Definition reads_back (x : float) (s q : Z) : bool :=
  PrimFloat.eqb (decimal_value false (Z.to_N s) q) x.

(** The [k]-digit decimal closest to [x = m * 2^e] that reads back as [x],
    as [(s, q)] with value [s * 10^q]. *)
Definition candidate (x : float) (m : positive) (e n : Z) (k : Z)
    : option (Z * Z) :=
  let (p, d) := scaled m e (k - n) in
  let lo := p / d in
  let r := p mod d in
  let hi := lo + 1 in
  let lo_first := (2 * r <? d) || ((2 * r =? d) && Z.even lo) in
  let (first, second) := if lo_first then (lo, hi) else (hi, lo) in
  if reads_back x first (n - k) then Some (first, n - k)
  else if reads_back x second (n - k) then Some (second, n - k)
  else None.

(** The shortest such decimal: the first [k] from [k] on, within [fuel]
    tries, for which one exists. *)
Fixpoint shortest (x : float) (m : positive) (e n : Z) (k : Z) (fuel : nat)
    : Z * Z :=
  match fuel with
  | O => (Zpos m * 2 ^ Z.max e 0 * 5 ^ Z.max (- e) 0, Z.min e 0)
  | S fuel' =>
      match candidate x m e n k with
      | Some sq => sq
      | None => shortest x m e n (k + 1) fuel'
      end
  end.

(** Trailing zeros move from the digits to the exponent. *)
Fixpoint strip_zeros (s q : Z) (fuel : nat) : Z * Z :=
  match fuel with
  | O => (s, q)
  | S fuel' =>
      if (s mod 10 =? 0) && (0 <? s) then strip_zeros (s / 10) (q + 1) fuel'
      else (s, q)
  end.

(** Number::toString for a positive finite [x = m * 2^e]. *)
Definition positive_to_string (x : float) (m : positive) (e : Z) : string :=
  let n0 := decimal_exponent m e in
  let (s0, q0) := shortest x m e n0 1 17 in
  let (s, q) := strip_zeros s0 q0 400 in
  let ds := digits (Z.to_N s) in
  let k := Z.of_nat (String.length ds) in
  let n := k + q in
  if (k <=? n) && (n <=? 21) then
    (ds ++ zeros (Z.to_nat (n - k)))%string
  else if (0 <? n) && (n <=? 21) then
    (substring 0 (Z.to_nat n) ds ++ "."
     ++ substring (Z.to_nat n) (Z.to_nat (k - n)) ds)%string
  else if (-6 <? n) && (n <=? 0) then
    ("0." ++ zeros (Z.to_nat (- n)) ++ ds)%string
  else
    let exponent :=
      String.append (if n - 1 <? 0 then "e-" else "e+")
                    (digits (Z.to_N (Z.abs (n - 1)))) in
    if k =? 1 then (ds ++ exponent)%string
    else (substring 0 1 ds ++ "." ++ substring 1 (Z.to_nat (k - 1)) ds
          ++ exponent)%string.

(** [String(x)] *)
Definition NumberToString (x : float) : string :=
  match Prim2SF x with
  | S754_nan => "NaN"
  | S754_zero _ => "0"
  | S754_infinity false => "Infinity"
  | S754_infinity true => "-Infinity"
  | S754_finite false m e => positive_to_string x m e
  | S754_finite true m e => ("-" ++ positive_to_string (PrimFloat.opp x) m e)%string
  end.

(** The integer [n] for which [n / 10^f - m * 2^e] is closest to zero, the
    larger one when two are as close. *)
Definition fixed_units (m : positive) (e : Z) (f : nat) : Z :=
  let (p, d) := scaled m e (Z.of_nat f) in
  (2 * p + d) / (2 * d).

(** The digits of [n] with a point before the last [f] of them. *)
Definition fixed_digits (n : Z) (f : nat) : string :=
  let ip := digits (Z.to_N (n / 10 ^ Z.of_nat f)) in
  match f with
  | O => ip
  | _ =>
      let fp := digits (Z.to_N (n mod 10 ^ Z.of_nat f)) in
      (ip ++ "." ++ zeros (f - String.length fp) ++ fp)%string
  end.

(** [x.toFixed(f)] for [0 <= f <= 100]: values from [10^21] on, [NaN] and
    the infinities print as [String(x)] does. *)
Definition toFixed (x : float) (f : nat) : string :=
  match Prim2SF x with
  | S754_finite neg m e =>
      if below_pow10 m e 21
      then String.append (if neg then "-" else "")
                         (fixed_digits (fixed_units m e f) f)
      else NumberToString x
  | S754_zero _ => fixed_digits 0 f
  | _ => NumberToString x
  end.

(** *** Reading back what was printed *)




Definition engine : Engine :=
  Build_Engine StringToNumber NumberToString parseFloat_string
               parseInt_string toFixed.
End Ecma.

(** ** What the specification calls things *)

(** [createEmployee]'s required fields and [createPayroll]'s. *)
Definition employee_required : list string :=
  ["employee_code"; "first_name"; "last_name"; "designation"; "department";
   "email"; "bank_account"; "salary"].

Definition payroll_required : list string :=
  ["employee_id"; "pay_period_start"; "pay_period_end"; "gross_pay"].

(** Every field of [names] is present in [o], in the handlers' sense: its
    value is truthy. *)
Definition all_present (names : list string) (o : object) : bool :=
  forallb (fun name => truthy (get name o)) names.

(** The document a handler starts from, and the document in the file. *)
Definition loaded (w : World) : Document := fst (readData w).





(** ** Documents the server builds *)

(** [a < b] on two Numbers. *)
Definition num_lt (x y : float) : bool := PrimFloat.ltb x y.

(** Every payroll entry names the id of an employee of the document. *)
Definition referential (d : Document) : Prop :=
  forall p, In p (payrolls d) ->
    exists emp, In emp (employees d)
                /\ num_eq (Employee.id emp) (Payroll.employee_id p) = true.

(** The ids of [l] grow along the list and stay below the counter [next]. *)
Definition numbered {A : Type} (id : A -> float) (l : list A) (next : float)
    : Prop :=
  StronglySorted (fun a b => num_lt (id a) (id b) = true) l
  /\ Forall (fun a => num_lt (id a) next = true) l.

(** Both lists of [d] are numbered by their counters. *)
Definition well_numbered (d : Document) : Prop :=
  numbered Employee.id (employees d) (nextEmployeeId d)
  /\ numbered Payroll.id (payrolls d) (nextPayrollId d).

(** Adding 1 to [n] gives a larger Number: so it is for the counters of any
    file the server can build in practice, and so it stops being at [2^53]. *)
Definition can_grow (n : float) : bool := num_lt n (PrimFloat.add n 1).

(** Both counters can be incremented once more. *)
Definition counters_can_grow (w : World) : Prop :=
  can_grow (nextEmployeeId (loaded w)) = true
  /\ can_grow (nextPayrollId (loaded w)) = true.

(** The disk turning writable or not between two requests. *)
Definition set_writable (b : bool) (w : World) : World :=
  {| file := file w; writable := b; reads := reads w; writes := writes w |}.

Section Reachability.
Context {E : Engine}.
Variable env_ADMIN_KEY : option string.

(** The worlds the server can be in: it starts on a file that reads as the
    empty document, and then serves requests, one after the other, while the
    disk may turn writable or not. *)
Inductive reachable : World -> Prop :=
| reachable_start (w : World) :
    loaded w = emptyDocument -> reachable w
| reachable_serve (w : World) (r : Route) (req : Request) :
    reachable w -> reachable (snd (serve env_ADMIN_KEY r req w))
| reachable_disk (w : World) (b : bool) :
    reachable w -> reachable (set_writable b w).
End Reachability.

(** ** The browser client, as far as it talks to the server *)

Module Client.






(** [handleEmployeeSubmit], on success: [employees.push(newEmployee)]. *)
Definition push_employee (newEmployee : Employee.t) (local : list Employee.t)
    : list Employee.t :=
  local ++ [newEmployee].

(** [deleteEmployee], on success:
    [employees = employees.filter(emp => emp.id !== employeeId)].  The local
    payroll list is left as it is. *)
Definition drop_employee (employeeId : float) (local : list Employee.t)
    : list Employee.t :=
  filter (fun emp => negb (num_eq (Employee.id emp) employeeId)) local.
End Client.

(** ** Concrete requests and worlds *)

Module Example.
(** An environment without [ADMIN_KEY]: the key is [admin123]. *)
Definition no_key : option string := None.

Definition request (auth : option string) (fields : object) (p : string)
    : Request :=
  {| authorization := auth; body := fields; param := p;
     now := "2024-02-01T09:00:00.000Z" |}.

Definition admin : option string := Some "Bearer admin123".

(** The data file right after [initializeDataFile]. *)
Definition fresh : World :=
  {| file := Holds emptyDocument; writable := true; reads := 0; writes := [] |}.

(** A world whose data file cannot be read. *)
Definition unreadable : World :=
  {| file := Unreadable; writable := true; reads := 0; writes := [] |}.

Definition ann : object :=
  [("employee_code", JStr "E1"); ("first_name", JStr "Ann");
   ("last_name", JStr "Lee"); ("designation", JStr "Eng");
   ("department", JStr "R&D"); ("email", JStr "a@x.com");
   ("bank_account", JStr "123"); ("salary", JNum 5000)].

Definition january (employee_id : jsval) : object :=
  [("employee_id", employee_id); ("pay_period_start", JStr "2024-01-01");
   ("pay_period_end", JStr "2024-01-31"); ("gross_pay", JNum 5000);
   ("deductions", JNum 500)].

(** The world after Ann was created in [fresh]. *)
Definition with_ann : World :=
  snd (post_employees (E := Ecma.engine) (request admin ann "") fresh).

(** The world after a January payroll for Ann was added to [with_ann]. *)
Definition with_payroll : World :=
  snd (post_payrolls (E := Ecma.engine) (request admin (january (JNum 1)) "") with_ann).

(** A data file in which Ann's payroll entry is left without Ann. *)
Definition orphaned : World :=
  {| file := Holds {| employees := [];
                      payrolls := payrolls (loaded with_payroll);
                      nextEmployeeId := 2; nextPayrollId := 2 |};
     writable := true; reads := 0; writes := [] |}.


End Example.

(** ** More worlds and requests *)

Module Scenario.
(** A world whose data file holds text that is not JSON. *)
Definition corrupt : World :=
  {| file := Unparsable "{ employees: "; writable := true; reads := 0;
     writes := [] |}.


(** Bo's fields, with the salary as the text a form sends. *)
Definition bo : object :=
  [("employee_code", JStr "E2"); ("first_name", JStr "Bo");
   ("last_name", JStr "Ray"); ("designation", JStr "Ops");
   ("department", JStr "IT"); ("email", JStr "b@x.com");
   ("bank_account", JStr "456"); ("salary", JStr "4200.50")].

(** The record the server creates for Bo in [Example.with_payroll]. *)
Definition bo_record : Employee.t :=
  {| Employee.id := 2; Employee.employee_code := JStr "E2";
     Employee.first_name := JStr "Bo"; Employee.last_name := JStr "Ray";
     Employee.designation := JStr "Ops"; Employee.department := JStr "IT";
     Employee.email := JStr "b@x.com"; Employee.bank_account := JStr "456";
     Employee.salary := 4200.5;
     Employee.created_at := "2024-02-01T09:00:00.000Z" |}.

(** The world after Bo was created in [Example.with_payroll]. *)
Definition with_bo : World :=
  snd (post_employees (E := Ecma.engine)
         (Example.request Example.admin bo "") Example.with_payroll).


End Scenario.

(** * Properties *)

Open Scope list_scope.

(** ** The data file *)

Lemma readData_world (w : World) :
  snd (readData w)
  = {| file := file w; writable := writable w;
       reads := S (reads w); writes := writes w |}.
Proof. unfold readData. destruct (file w); reflexivity. Qed.

Lemma readData_pair (w : World) :
  readData w = (loaded w, snd (readData w)).
Proof. unfold loaded. destruct (readData w); reflexivity. Qed.

Lemma loaded_same_file (w w' : World) :
  file w' = file w -> loaded w' = loaded w.
Proof.
  unfold loaded, readData. intros ->. destruct (file w); reflexivity.
Qed.

Lemma writeData_writable (d : Document) (w : World) :
  writable w = true ->
  writeData d w
  = (true, {| file := Holds d; writable := true;
              reads := reads w; writes := writes w ++ [d] |}).
Proof. unfold writeData. intros ->. reflexivity. Qed.

(** C9: [readData] (the specification's [load]) never raises: when the file
    cannot be read or its text cannot be parsed, it returns the empty
    document, whose two lists are empty and whose two counters are 1. *)
Theorem readData_failure_returns_empty_document (w : World) :
  file w = Unreadable \/ (exists text, file w = Unparsable text) ->
  fst (readData w) = emptyDocument
  /\ employees (fst (readData w)) = []
  /\ payrolls (fst (readData w)) = []
  /\ nextEmployeeId (fst (readData w)) = 1%float
  /\ nextPayrollId (fst (readData w)) = 1%float.
Proof.
  intros Hfail.
  assert (Hempty : fst (readData w) = emptyDocument).
  { unfold readData. destruct Hfail as [-> | [text ->]]; reflexivity. }
  rewrite Hempty. repeat split.
Qed.

Lemma readData_failure_returns_empty_document_witness :
  (file Example.unreadable = Unreadable
   \/ exists text, file Example.unreadable = Unparsable text)
  /\ fst (readData Example.unreadable) = emptyDocument.
Proof.
  split.
  - left. reflexivity.
  - apply (readData_failure_returns_empty_document Example.unreadable).
    left. reflexivity.
Defined.

(** ** Lists *)

Lemma find_none_iff {A : Type} (p : A -> bool) (l : list A) :
  find p l = None <-> (forall x, In x l -> p x = false).
Proof.
  split.
  - intros Hnone x Hin. exact (find_none p l Hnone x Hin).
  - induction l as [| a l IH]; intros Hall; simpl.
    + reflexivity.
    + rewrite (Hall a (or_introl eq_refl)). apply IH.
      intros x Hin. apply Hall. right. exact Hin.
Qed.

Lemma find_exists {A : Type} (p : A -> bool) (l : list A) (x : A) :
  In x l -> p x = true -> exists y, find p l = Some y.
Proof.
  intros Hin Hp. destruct (find p l) as [y |] eqn:Hfind.
  - exists y. reflexivity.
  - rewrite (find_none p l Hfind x Hin) in Hp. discriminate.
Qed.

(** [findIndex] stops at the first element that satisfies [p]; removing the
    element at that index keeps what is before and after it. *)
Lemma findIndex_some {A : Type} (p : A -> bool) (l : list A) (i : nat) :
  findIndex p l = Some i ->
  exists before x after,
    l = before ++ x :: after
    /\ List.length before = i
    /\ p x = true
    /\ (forall y, In y before -> p y = false)
    /\ splice1 i l = before ++ after.
Proof.
  revert i. induction l as [| a l IH]; intros i Hfound; simpl in Hfound.
  - discriminate.
  - destruct (p a) eqn:Hpa.
    + injection Hfound as <-. exists [], a, l. repeat split; auto.
      intros y [].
    + destruct (findIndex p l) as [j |] eqn:Hrest; simpl in Hfound;
        [| discriminate].
      injection Hfound as <-.
      destruct (IH j eq_refl) as (before & x & after & -> & Hlen & Hpx & Hbefore & Hsplice).
      exists (a :: before), x, after. repeat split; simpl; auto.
      * intros y [<- | Hy]; auto.
      * unfold splice1 in *. simpl. f_equal. exact Hsplice.
Qed.

Lemma findIndex_none {A : Type} (p : A -> bool) (l : list A) :
  findIndex p l = None -> forall x, In x l -> p x = false.
Proof.
  induction l as [| a l IH]; intros Hnone x Hin; simpl in *.
  - contradiction.
  - destruct (p a) eqn:Hpa; [discriminate |].
    destruct (findIndex p l); [discriminate |].
    destruct Hin as [<- | Hin]; auto.
Qed.

Lemma filter_all {A : Type} (p : A -> bool) (l : list A) :
  (forall x, In x l -> p x = true) -> filter p l = l.
Proof.
  induction l as [| a l IH]; intros Hall; simpl.
  - reflexivity.
  - rewrite (Hall a (or_introl eq_refl)). f_equal. apply IH.
    intros x Hin. apply Hall. right. exact Hin.
Qed.

(** ** Presence of the required fields *)

Lemma all_present_employee (o : object) :
  all_present employee_required o = true ->
  negb (truthy (get "employee_code" o)) || negb (truthy (get "first_name" o))
  || negb (truthy (get "last_name" o)) || negb (truthy (get "designation" o))
  || negb (truthy (get "department" o)) || negb (truthy (get "email" o))
  || negb (truthy (get "bank_account" o)) || negb (truthy (get "salary" o))
  = false.
Proof.
  unfold all_present, employee_required. cbn [forallb]. intros H.
  repeat (apply andb_prop in H; destruct H as [?H H]).
  repeat match goal with Hf : truthy _ = true |- _ => rewrite Hf; clear Hf end.
  reflexivity.
Qed.


(** A required field that is falsy makes the presence test fail. *)
Lemma absent_employee_field (o : object) (name : string) :
  In name employee_required ->
  truthy (get name o) = false ->
  negb (truthy (get "employee_code" o)) || negb (truthy (get "first_name" o))
  || negb (truthy (get "last_name" o)) || negb (truthy (get "designation" o))
  || negb (truthy (get "department" o)) || negb (truthy (get "email" o))
  || negb (truthy (get "bank_account" o)) || negb (truthy (get "salary" o))
  = true.
Proof.
  unfold employee_required. intros Hin Hfalsy.
  repeat (destruct Hin as [<- | Hin];
          [rewrite Hfalsy; cbn [negb orb];
           repeat rewrite orb_true_r; reflexivity |]).
  destruct Hin.
Qed.

Lemma absent_payroll_field (o : object) (name : string) :
  In name payroll_required ->
  truthy (get name o) = false ->
  negb (truthy (get "employee_id" o)) || negb (truthy (get "pay_period_start" o))
  || negb (truthy (get "pay_period_end" o)) || negb (truthy (get "gross_pay" o))
  = true.
Proof.
  unfold payroll_required. intros Hin Hfalsy.
  repeat (destruct Hin as [<- | Hin];
          [rewrite Hfalsy; cbn [negb orb];
           repeat rewrite orb_true_r; reflexivity |]).
  destruct Hin.
Qed.

(** The two presence tests, as [all_present]. *)
Lemma employee_presence_test (o : object) :
  negb (truthy (get "employee_code" o)) || negb (truthy (get "first_name" o))
  || negb (truthy (get "last_name" o)) || negb (truthy (get "designation" o))
  || negb (truthy (get "department" o)) || negb (truthy (get "email" o))
  || negb (truthy (get "bank_account" o)) || negb (truthy (get "salary" o))
  = negb (all_present employee_required o).
Proof.
  destruct (all_present employee_required o) eqn:Hpresent.
  - apply all_present_employee. exact Hpresent.
  - unfold all_present in Hpresent.
    assert (Hsome : exists name, In name employee_required
                                 /\ truthy (get name o) = false).
    { destruct (forallb_forall (fun name => truthy (get name o)) employee_required)
        as [_ Hall].
      destruct (existsb (fun name => negb (truthy (get name o))) employee_required)
        eqn:Hex.
      - apply existsb_exists in Hex. destruct Hex as (name & Hin & Hneg).
        exists name. split; [exact Hin |]. apply negb_true_iff. exact Hneg.
      - rewrite Hall in Hpresent; [discriminate |].
        intros name Hin. apply negb_false_iff.
        destruct (negb (truthy (get name o))) eqn:Hneg; [| reflexivity].
        assert (Hyes : existsb (fun name => negb (truthy (get name o)))
                               employee_required = true).
        { apply existsb_exists. exists name. auto. }
        rewrite Hyes in Hex. discriminate. }
    destruct Hsome as (name & Hin & Hfalsy).
    apply (absent_employee_field o name Hin Hfalsy).
Qed.

Lemma payroll_presence_test (o : object) :
  negb (truthy (get "employee_id" o)) || negb (truthy (get "pay_period_start" o))
  || negb (truthy (get "pay_period_end" o)) || negb (truthy (get "gross_pay" o))
  = negb (all_present payroll_required o).
Proof.
  unfold all_present, payroll_required. cbn [forallb].
  destruct (truthy (get "employee_id" o)), (truthy (get "pay_period_start" o)),
    (truthy (get "pay_period_end" o)), (truthy (get "gross_pay" o)); reflexivity.
Qed.

(** ** Conversions *)

Section ConversionFacts.
Context {E : Engine}.

(** A value that [ToNumber] converts, [ToString] converts too: the two throw
    on the same values. *)
Lemma ToNumber_ToString (v : jsval) (x : float) :
  ToNumber v = Some x -> exists s, ToString v = Some s.
Proof.
  destruct v as [| | [] | y | s | items | props]; try (eexists; reflexivity).
  - unfold ToNumber. destruct (ToString (JArr items)) as [s |];
      [eexists; reflexivity | discriminate].
  - unfold ToNumber. destruct (ToString (JObj props)) as [s |];
      [eexists; reflexivity | discriminate].
Qed.

Lemma isNaN_parseFloat (v : jsval) (b : bool) :
  isNaN v = Some b -> exists x, parseFloat v = Some x.
Proof.
  unfold isNaN, parseFloat. destruct (ToNumber v) as [x |] eqn:Hnumber;
    [intros _ | discriminate].
  destruct (ToNumber_ToString v x Hnumber) as (s & ->). eexists. reflexivity.
Qed.

End ConversionFacts.

(** ** Creating an employee *)

Section Employees.
Context {E : Engine}.

(** What the handler does once the body has passed both validations: the
    rest of the function, as one equation. *)
Lemma post_employees_validated (req : Request) (w : World) :
  all_present employee_required (body req) = true ->
  isNaN (get "salary" (body req)) = Some false ->
  le_zero (get "salary" (body req)) = Some false ->
  exists salary_number,
    parseFloat (get "salary" (body req)) = Some salary_number
    /\ post_employees req w
       = match find (fun emp => strict_eq (Employee.employee_code emp)
                                          (get "employee_code" (body req)))
                    (employees (loaded w)) with
         | Some _ =>
             (status_json 400 (ErrorBody "Employee code already exists"),
              snd (readData w))
         | None =>
             let newEmployee :=
               {| Employee.id := nextEmployeeId (loaded w);
                  Employee.employee_code := get "employee_code" (body req);
                  Employee.first_name := get "first_name" (body req);
                  Employee.last_name := get "last_name" (body req);
                  Employee.designation := get "designation" (body req);
                  Employee.department := get "department" (body req);
                  Employee.email := get "email" (body req);
                  Employee.bank_account := get "bank_account" (body req);
                  Employee.salary := salary_number;
                  Employee.created_at := now req |} in
             let data :=
               {| employees := employees (loaded w) ++ [newEmployee];
                  payrolls := payrolls (loaded w);
                  nextEmployeeId := PrimFloat.add (nextEmployeeId (loaded w)) 1;
                  nextPayrollId := nextPayrollId (loaded w) |} in
             if writable w
             then (status_json 201 (EmployeeBody newEmployee),
                   {| file := Holds data; writable := writable w;
                      reads := S (reads w); writes := writes w ++ [data] |})
             else (status_json 500 (ErrorBody "Failed to save employee data"),
                   snd (readData w))
         end.
Proof.
  intros Hpresent Hnan Hle.
  destruct (isNaN_parseFloat _ _ Hnan) as (salary_number & Hsalary).
  exists salary_number. split; [exact Hsalary |].
  unfold post_employees.
  rewrite (all_present_employee _ Hpresent), Hnan, Hle.
  cbn [or_else evaluating]. rewrite (readData_pair w).
  destruct (find _ (employees (loaded w))); [reflexivity |].
  rewrite Hsalary. cbn [evaluating].
  cbv zeta. unfold writeData. rewrite readData_world. cbn [writable].
  destruct (writable w); reflexivity.
Qed.

End Employees.


Section Duplicates.
Context {E : Engine}.

(** C2, as the code has it: once the body has passed both validations, a
    code that [===] the code of an employee in the document is answered
    400 with the message [Employee code already exists], and nothing is
    written: the file and the write history are what they were. *)
Theorem post_employees_duplicate_code (req : Request) (w : World) :
  all_present employee_required (body req) = true ->
  isNaN (get "salary" (body req)) = Some false ->
  le_zero (get "salary" (body req)) = Some false ->
  (exists emp, In emp (employees (loaded w))
     /\ strict_eq (Employee.employee_code emp)
                  (get "employee_code" (body req)) = true) ->
  fst (post_employees req w)
  = status_json 400 (ErrorBody "Employee code already exists")
  /\ file (snd (post_employees req w)) = file w
  /\ writes (snd (post_employees req w)) = writes w
  /\ loaded (snd (post_employees req w)) = loaded w.
Proof.
  intros Hpresent Hnan Hle (emp & Hin & Hsame).
  destruct (post_employees_validated req w Hpresent Hnan Hle)
    as (salary_number & _ & ->).
  destruct (find_exists
              (fun emp => strict_eq (Employee.employee_code emp)
                                    (get "employee_code" (body req)))
              _ emp Hin Hsame) as (found & ->).
  cbn [fst snd]. rewrite readData_world. cbn [file writes].
  repeat split. apply loaded_same_file. reflexivity.
Qed.
End Duplicates.

Lemma post_employees_duplicate_code_witness :
  fst (post_employees (E := Ecma.engine)
         (Example.request Example.admin Example.ann "") Example.with_ann)
  = status_json 400 (ErrorBody "Employee code already exists")
  /\ file (snd (post_employees (E := Ecma.engine)
                  (Example.request Example.admin Example.ann "") Example.with_ann))
     = file Example.with_ann.
Proof.
  destruct (post_employees_duplicate_code (E := Ecma.engine)
              (Example.request Example.admin Example.ann "") Example.with_ann)
    as (Hresponse & Hfile & _).
  - vm_compute. reflexivity.
  - vm_compute. reflexivity.
  - vm_compute. reflexivity.
  - eexists. split; [vm_compute; left; reflexivity | vm_compute; reflexivity].
  - split; [exact Hresponse | exact Hfile].
Defined.

(** C2 as stated fails twice.  Ann's code is in the document and the request
    repeats it: the route answers 400, not 409.  And the answer does depend
    on the other fields: without [first_name] the same code is answered with
    the missing-field error, not with the duplicate one. *)
Lemma duplicate_code_is_not_answered_409 :
  (exists emp, In emp (employees (loaded Example.with_ann))
     /\ Employee.employee_code emp = get "employee_code" Example.ann)
  /\ status (fst (serve (E := Ecma.engine) Example.no_key PostEmployees
                    (Example.request Example.admin Example.ann "")
                    Example.with_ann)) = 400%Z
  /\ status (fst (serve (E := Ecma.engine) Example.no_key PostEmployees
                    (Example.request Example.admin Example.ann "")
                    Example.with_ann)) <> 409%Z
  /\ fst (serve (E := Ecma.engine) Example.no_key PostEmployees
            (Example.request Example.admin
               [("employee_code", JStr "E1"); ("salary", JNum 5000)] "")
            Example.with_ann)
     = status_json 400 (ErrorBody "All fields are required").
Proof.
  split.
  - eexists. split; [vm_compute; left; reflexivity | reflexivity].
  - split; [vm_compute; reflexivity |].
    split; [vm_compute; discriminate | vm_compute; reflexivity].
Qed.

(** ** The presence test is a truthiness test *)

Section Presence.
Context {E : Engine}.

Lemma post_employees_missing_field (req : Request) (w : World) (name : string) :
  In name employee_required ->
  truthy (get name (body req)) = false ->
  post_employees req w
  = (status_json 400 (ErrorBody "All fields are required"), w).
Proof.
  intros Hin Hfalsy. unfold post_employees.
  rewrite (absent_employee_field _ name Hin Hfalsy). reflexivity.
Qed.

Lemma post_payrolls_missing_field (req : Request) (w : World) (name : string) :
  In name payroll_required ->
  truthy (get name (body req)) = false ->
  post_payrolls req w
  = (status_json 400
       (ErrorBody "employee_id, pay_period_start, pay_period_end, and gross_pay are required"),
     w).
Proof.
  intros Hin Hfalsy. unfold post_payrolls.
  rewrite (absent_payroll_field _ name Hin Hfalsy). reflexivity.
Qed.

(** C10: both creation handlers test their required fields for truthiness.
    The number 0, the empty string, [null] and [false] are falsy, as a missing
    field ([undefined]) is; a required field that is falsy is answered 400
    with the missing-field error and the world is untouched.  In particular
    [salary = 0] is rejected by the presence test, and [employee_id = 0] is
    answered 400, so never 404. *)
Theorem falsy_field_is_answered_as_missing (req : Request) (w : World) (name : string) :
  (truthy (JNum 0) = false /\ truthy (JStr "") = false
   /\ truthy JNull = false /\ truthy (JBool false) = false
   /\ truthy JUndefined = false)
  /\ (In name employee_required ->
      truthy (get name (body req)) = false ->
      post_employees req w
      = (status_json 400 (ErrorBody "All fields are required"), w))
  /\ (In name payroll_required ->
      truthy (get name (body req)) = false ->
      post_payrolls req w
      = (status_json 400
           (ErrorBody "employee_id, pay_period_start, pay_period_end, and gross_pay are required"),
         w))
  /\ (get "salary" (body req) = JNum 0 ->
      post_employees req w
      = (status_json 400 (ErrorBody "All fields are required"), w))
  /\ (get "employee_id" (body req) = JNum 0 ->
      post_payrolls req w
      = (status_json 400
           (ErrorBody "employee_id, pay_period_start, pay_period_end, and gross_pay are required"),
         w)
      /\ status (fst (post_payrolls req w)) <> 404%Z).
Proof.
  split; [repeat split |].
  split; [apply post_employees_missing_field |].
  split; [apply post_payrolls_missing_field |].
  split.
  - intros Hzero.
    apply (post_employees_missing_field req w "salary").
    + unfold employee_required. simpl. tauto.
    + rewrite Hzero. reflexivity.
  - intros Hzero.
    assert (Hanswer : post_payrolls req w
                      = (status_json 400
                           (ErrorBody "employee_id, pay_period_start, pay_period_end, and gross_pay are required"),
                         w)).
    { apply (post_payrolls_missing_field req w "employee_id").
      - unfold payroll_required. simpl. tauto.
      - rewrite Hzero. reflexivity. }
    split; [exact Hanswer |]. rewrite Hanswer. cbn. discriminate.
Qed.
End Presence.

Lemma falsy_field_is_answered_as_missing_witness :
  post_employees (E := Ecma.engine)
    (Example.request Example.admin
       [("employee_code", JStr "E2"); ("first_name", JStr "");
        ("last_name", JStr "Lee"); ("designation", JStr "Eng");
        ("department", JStr "R&D"); ("email", JStr "b@x.com");
        ("bank_account", JStr "456"); ("salary", JNum 5000)] "")
    Example.with_ann
  = (status_json 400 (ErrorBody "All fields are required"), Example.with_ann)
  /\ status (fst (post_payrolls (E := Ecma.engine)
                    (Example.request Example.admin (Example.january (JNum 0)) "")
                    Example.with_ann)) <> 404%Z.
Proof.
  split.
  - destruct (falsy_field_is_answered_as_missing (E := Ecma.engine)
                (Example.request Example.admin
                   [("employee_code", JStr "E2"); ("first_name", JStr "");
                    ("last_name", JStr "Lee"); ("designation", JStr "Eng");
                    ("department", JStr "R&D"); ("email", JStr "b@x.com");
                    ("bank_account", JStr "456"); ("salary", JNum 5000)] "")
                Example.with_ann "first_name") as (_ & Hemployee & _).
    apply Hemployee.
    + right. left. reflexivity.
    + vm_compute. reflexivity.
  - destruct (falsy_field_is_answered_as_missing (E := Ecma.engine)
                (Example.request Example.admin (Example.january (JNum 0)) "")
                Example.with_ann "employee_id") as (_ & _ & _ & _ & Hzero).
    apply Hzero. vm_compute. reflexivity.
Defined.

(** ** Creating a payroll *)

Section Payrolls.
Context {E : Engine}.



End Payrolls.



(** ** Reading a payslip *)

Section Payslips.
Context {E : Engine}.

(** C7: when the payroll entry with the requested id names an employee id
    that no employee of the document has (the employee was deleted, say),
    the payslip route answers 404 [Employee not found for this payroll entry]:
    no payslip is returned, and nothing is written.  The entry with the
    requested id is the one [find] selects, the first in the list; the ids
    the server assigns are distinct, so it is the only one. *)
Theorem get_payslip_orphan_payroll (req : Request) (w : World) (payroll : Payroll.t) :
  find (fun p => num_eq (Payroll.id p) (parseInt_string (param req)))
       (payrolls (loaded w)) = Some payroll ->
  (forall emp, In emp (employees (loaded w)) ->
     num_eq (Employee.id emp) (Payroll.employee_id payroll) = false) ->
  fst (get_payslip req w)
  = status_json 404 (ErrorBody "Employee not found for this payroll entry")
  /\ (forall p e, payload (fst (get_payslip req w)) <> PayslipBody p e)
  /\ file (snd (get_payslip req w)) = file w
  /\ writes (snd (get_payslip req w)) = writes w.
Proof.
  intros Hpayroll Horphan. apply find_none_iff in Horphan.
  unfold get_payslip. rewrite (readData_pair w), Hpayroll, Horphan.
  cbn [fst snd]. rewrite readData_world. cbn [file writes payload status_json].
  repeat split. intros p e. discriminate.
Qed.
End Payslips.

Lemma get_payslip_orphan_payroll_witness :
  fst (get_payslip (E := Ecma.engine) (Example.request None [] "1")
         Example.orphaned)
  = status_json 404 (ErrorBody "Employee not found for this payroll entry").
Proof.
  destruct (get_payslip_orphan_payroll (E := Ecma.engine)
              (Example.request None [] "1") Example.orphaned
              {| Payroll.id := 1; Payroll.employee_id := 1;
                 Payroll.pay_period_start := JStr "2024-01-01";
                 Payroll.pay_period_end := JStr "2024-01-31";
                 Payroll.gross_pay := 5000; Payroll.deductions := 500;
                 Payroll.net_pay := 4500;
                 Payroll.created_at := "2024-02-01T09:00:00.000Z" |})
    as (Hresponse & _).
  - vm_compute. reflexivity.
  - intros emp Hin. vm_compute in Hin. destruct Hin.
  - exact Hresponse.
Defined.

(** ** Deleting an employee *)

Section Deletion.
Context {E : Engine}.

(** C3: when an employee has the requested id, the handler builds one
    document and writes it once.  In that document the first employee with
    that id is gone (the only one, when no later employee shares the id: the
    list is then the old one without the employees of that id), the payroll
    entries are the old ones whose [employee_id] is another id, in their old
    order, and the counters are unchanged.  When the write succeeds that
    document is the file's content and the one new entry of the write
    history. *)
Theorem delete_employee_cascades (req : Request) (w : World) :
  let employeeId := parseInt_string (param req) in
  (exists emp, In emp (employees (loaded w))
     /\ num_eq (Employee.id emp) employeeId = true) ->
  exists before removed after data,
    employees (loaded w) = before ++ removed :: after
    /\ num_eq (Employee.id removed) employeeId = true
    /\ (forall emp, In emp before -> num_eq (Employee.id emp) employeeId = false)
    /\ data = {| employees := before ++ after;
                 payrolls :=
                   filter (fun p => negb (num_eq (Payroll.employee_id p) employeeId))
                          (payrolls (loaded w));
                 nextEmployeeId := nextEmployeeId (loaded w);
                 nextPayrollId := nextPayrollId (loaded w) |}
    /\ ((forall emp, In emp after -> num_eq (Employee.id emp) employeeId = false) ->
        employees data
        = filter (fun emp => negb (num_eq (Employee.id emp) employeeId))
                 (employees (loaded w)))
    /\ snd (delete_employee req w) = snd (writeData data (snd (readData w)))
    /\ (writable w = true ->
        fst (delete_employee req w)
        = json (MessageBody "Employee and associated payroll entries deleted successfully")
        /\ file (snd (delete_employee req w)) = Holds data
        /\ writes (snd (delete_employee req w)) = writes w ++ [data]
        /\ loaded (snd (delete_employee req w)) = data).
Proof.
  intros employeeId (emp & Hin & Hid).
  destruct (findIndex (fun emp => num_eq (Employee.id emp) employeeId)
                      (employees (loaded w))) as [i |] eqn:Hindex.
  2: { rewrite (findIndex_none _ _ Hindex emp Hin) in Hid. discriminate. }
  destruct (findIndex_some _ _ _ Hindex)
    as (before & removed & after & Hsplit & _ & Hremoved & Hbefore & Hsplice).
  exists before, removed, after. eexists.
  split; [exact Hsplit |]. split; [exact Hremoved |].
  split; [exact Hbefore |]. split; [reflexivity |].
  split; [| split].
  - intros Hafter. cbn [employees]. rewrite Hsplit, filter_app. cbn [filter].
    rewrite Hremoved. cbn [negb].
    rewrite !filter_all; [reflexivity | |].
    + intros x Hx. rewrite (Hafter x Hx). reflexivity.
    + intros x Hx. rewrite (Hbefore x Hx). reflexivity.
  - unfold delete_employee. fold employeeId.
    rewrite (readData_pair w), Hindex, Hsplice.
    destruct (writeData _ _) as [saved w'] eqn:Hwrite.
    destruct saved; reflexivity.
  - intros Hwritable. unfold delete_employee. fold employeeId.
    rewrite (readData_pair w), Hindex, Hsplice.
    rewrite writeData_writable by (rewrite readData_world; exact Hwritable).
    rewrite readData_world. cbn [fst snd file writes reads].
    repeat split.
Qed.
End Deletion.

Lemma delete_employee_cascades_witness :
  fst (delete_employee (E := Ecma.engine)
         (Example.request Example.admin [] "1") Example.with_payroll)
  = json (MessageBody "Employee and associated payroll entries deleted successfully")
  /\ employees (loaded (snd (delete_employee (E := Ecma.engine)
                               (Example.request Example.admin [] "1")
                               Example.with_payroll))) = []
  /\ payrolls (loaded (snd (delete_employee (E := Ecma.engine)
                              (Example.request Example.admin [] "1")
                              Example.with_payroll))) = [].
Proof.
  destruct (delete_employee_cascades (E := Ecma.engine)
              (Example.request Example.admin [] "1") Example.with_payroll)
    as (before & removed & after & data & _ & _ & _ & _ & _ & _ & Hsaved).
  - eexists. split; [vm_compute; left; reflexivity | vm_compute; reflexivity].
  - destruct (Hsaved eq_refl) as (Hresponse & _).
    split; [exact Hresponse |]. split; vm_compute; reflexivity.
Defined.

(** ** Uniqueness of the employee codes *)




Section Uniqueness.
Context {E : Engine}.
Variable env_ADMIN_KEY : option string.






End Uniqueness.



(** ** The bearer-token gate *)




Section Gate.
Context {E : Engine}.
Variable env_ADMIN_KEY : option string.



Lemma authenticateAdmin_unfold (req : Request)
    (next : World -> Response * World) (w : World) :
  authenticateAdmin env_ADMIN_KEY req next w
  = if authorized env_ADMIN_KEY req then next w
    else (status_json 401 (ErrorBody "Unauthorized. Valid API key required."), w).
Proof.
  unfold authenticateAdmin, authorized. cbv zeta.
  destruct (_ || _); reflexivity.
Qed.

End Gate.



(** ** Net pay *)

(** *** The reference engine reads back what [toFixed] prints *)

Module EcmaFacts.
Import Ecma.
















End EcmaFacts.

(** *** What the payroll handler stores *)

Section NetPay.
Context {E : Engine}.

End NetPay.



(** ** The scenario of the specification, run *)

(** Creating Ann in the fresh file answers 201 with id 1; a January payroll
    for employee 1 with gross pay 5000 and deductions 500 answers 201 with
    net pay 4500; the payslip of payroll 1 joins the two records. *)
Example specification_scenario :
  (exists ann_record,
     fst (serve (E := Ecma.engine) Example.no_key PostEmployees
            (Example.request Example.admin Example.ann "") Example.fresh)
     = status_json 201 (EmployeeBody ann_record)
     /\ Employee.id ann_record = 1%float)
  /\ (exists payroll_record,
        fst (serve (E := Ecma.engine) Example.no_key PostPayrolls
               (Example.request Example.admin (Example.january (JNum 1)) "")
               Example.with_ann)
        = status_json 201 (PayrollBody payroll_record)
        /\ Payroll.net_pay payroll_record = 4500%float)
  /\ (exists payroll_record ann_info,
        fst (serve (E := Ecma.engine) Example.no_key GetPayslip
               (Example.request None [] "1") Example.with_payroll)
        = json (PayslipBody payroll_record ann_info)
        /\ Payroll.employee_id payroll_record = info_id ann_info
        /\ info_employee_code ann_info = JStr "E1").
Proof.
  split; [| split].
  - eexists. split; vm_compute; reflexivity.
  - eexists. split; vm_compute; reflexivity.
  - eexists. eexists. split; [vm_compute; reflexivity |].
    split; vm_compute; reflexivity.
Qed.

(** The reference engine on a few values whose conversions are well known. *)
Example reference_engine_conversions :
  Ecma.NumberToString 0x1.999999999999ap-4 = "0.1"%string
  /\ Ecma.NumberToString 1e21 = "1e+21"%string
  /\ Ecma.NumberToString 0x1.0c6f7a0b5ed8dp-20 = "0.000001"%string
  /\ Ecma.toFixed 0x1.0147ae147ae14p+0 2 = "1.00"%string
  /\ Ecma.toFixed 0x1.0b0a3d70a3d71p+3 2 = "8.35"%string
  /\ Ecma.toFixed (-0x1.8p+0) 0 = "-2"%string
  /\ Ecma.StringToNumber " 12 " = 12%float
  /\ PrimFloat.is_nan (Ecma.StringToNumber "12abc") = true
  /\ Ecma.StringToNumber "0x10" = 16%float
  /\ Ecma.parseFloat_string "0x10" = 0%float
  /\ Ecma.parseFloat_string "  -12.5e2xyz" = (-1250)%float
  /\ Ecma.parseInt_string " 42abc" = 42%float
  /\ PrimFloat.is_nan (Ecma.parseInt_string "abc") = true.
Proof. repeat split; vm_compute; reflexivity. Qed.

(** * Further properties of the server *)

(** ** Comparing Numbers *)

Module NumberFacts.

(** Two values that compare equal compare alike with any third one. *)
Lemma SFcompare_Eq_left (a b c : spec_float) :
  SFcompare a b = Some Eq -> SFcompare a c = SFcompare b c.
Proof.
  destruct a as [[] | [] | | [] ma ea], b as [[] | [] | | [] mb eb];
    cbn [SFcompare]; intros H; try discriminate H;
    try (destruct c as [[] | [] | | [] mc ec]; reflexivity);
    injection H as H;
    destruct (Z.compare ea eb) eqn:He; try discriminate H;
    apply Z.compare_eq in He; subst eb;
    assert (Hc : Pos.compare_cont Eq ma mb = Eq)
      by (destruct (Pos.compare_cont Eq ma mb);
          (reflexivity || discriminate H));
    apply Pos.compare_eq in Hc; subst mb; reflexivity.
Qed.

Lemma SFcompare_Eq_right (a b c : spec_float) :
  SFcompare a b = Some Eq -> SFcompare c a = SFcompare c b.
Proof.
  destruct a as [[] | [] | | [] ma ea], b as [[] | [] | | [] mb eb];
    cbn [SFcompare]; intros H; try discriminate H;
    try (destruct c as [[] | [] | | [] mc ec]; reflexivity);
    injection H as H;
    destruct (Z.compare ea eb) eqn:He; try discriminate H;
    apply Z.compare_eq in He; subst eb;
    assert (Hc : Pos.compare_cont Eq ma mb = Eq)
      by (destruct (Pos.compare_cont Eq ma mb);
          (reflexivity || discriminate H));
    apply Pos.compare_eq in Hc; subst mb; reflexivity.
Qed.

Lemma SFeqb_true (a b : spec_float) :
  SFeqb a b = true -> SFcompare a b = Some Eq.
Proof.
  unfold SFeqb. destruct (SFcompare a b) as [[| |] |];
    (reflexivity || discriminate).
Qed.

(** [===] on Numbers is a partial equivalence: a value [===] to another
    behaves as it does on either side of [===]. *)
Lemma num_eq_left (x y z : float) :
  num_eq x y = true -> num_eq x z = num_eq y z.
Proof.
  unfold num_eq. rewrite !eqb_spec. intros H. apply SFeqb_true in H.
  unfold SFeqb. rewrite (SFcompare_Eq_left _ _ _ H). reflexivity.
Qed.

Lemma num_eq_right (x y z : float) :
  num_eq x y = true -> num_eq z x = num_eq z y.
Proof.
  unfold num_eq. rewrite !eqb_spec. intros H. apply SFeqb_true in H.
  unfold SFeqb. rewrite (SFcompare_Eq_right _ _ _ H). reflexivity.
Qed.

Lemma num_eq_sym (x y : float) : num_eq x y = true -> num_eq y x = true.
Proof.
  intros H. rewrite (num_eq_right x y y H). rewrite <- (num_eq_left x y y H).
  exact H.
Qed.

(** [NaN] is [===] to nothing. *)
Lemma num_eq_nan (x y : float) :
  PrimFloat.is_nan y = true -> num_eq x y = false.
Proof.
  unfold PrimFloat.is_nan. intros Hnan. apply negb_true_iff in Hnan.
  destruct (num_eq x y) eqn:Hxy; [| reflexivity].
  pose proof (num_eq_left x y y Hxy) as Hyy. unfold num_eq in *.
  congruence.
Qed.

(** [<] on Numbers is compatible with [===] and transitive, and a value is
    never [===] to a larger one. *)
Lemma num_lt_not_eq (x y : float) : num_lt x y = true -> num_eq x y = false.
Proof.
  unfold num_lt, num_eq. rewrite ltb_spec, eqb_spec. unfold SFltb, SFeqb.
  destruct (SFcompare (Prim2SF x) (Prim2SF y)) as [[| |] |];
    (reflexivity || discriminate).
Qed.

Lemma num_lt_not_eq_sym (x y : float) : num_lt x y = true -> num_eq y x = false.
Proof.
  intros Hlt. destruct (num_eq y x) eqn:Hyx; [| reflexivity].
  apply num_eq_sym in Hyx. rewrite (num_lt_not_eq x y Hlt) in Hyx.
  discriminate.
Qed.

Lemma SFcompare_Lt_trans (a b c : spec_float) :
  SFcompare a b = Some Lt -> SFcompare b c = Some Lt -> SFcompare a c = Some Lt.
Proof.
  destruct a as [sa | sa | | sa ma ea], b as [sb | sb | | sb mb eb],
    c as [sc | sc | | sc mc ec]; cbn [SFcompare];
    try discriminate;
    try (destruct sa; try discriminate);
    try (destruct sb; try discriminate);
    try (destruct sc; try discriminate);
    try reflexivity.
  - change (Pos.compare_cont Eq) with Pos.compare.
    intros Hab Hbc. injection Hab as Hab. injection Hbc as Hbc. f_equal.
    destruct (Z.compare_spec ea eb), (Z.compare_spec eb ec),
      (Z.compare_spec ea ec); try discriminate; try lia; try reflexivity.
    subst. destruct (Pos.compare_spec ma mb), (Pos.compare_spec mb mc),
      (Pos.compare_spec ma mc); try discriminate; try lia; reflexivity.
  - change (Pos.compare_cont Eq) with Pos.compare.
    intros Hab Hbc. injection Hab as Hab. injection Hbc as Hbc. f_equal.
    destruct (Z.compare_spec ea eb), (Z.compare_spec eb ec),
      (Z.compare_spec ea ec); try discriminate; try lia; try reflexivity.
    subst. destruct (Pos.compare_spec ma mb), (Pos.compare_spec mb mc),
      (Pos.compare_spec ma mc); try discriminate; try lia; reflexivity.
Qed.

(** A value that is below another one is a number: it is [===] to itself. *)
Lemma SFcompare_refl (a b : spec_float) (c : comparison) :
  SFcompare a b = Some c -> SFcompare a a = Some Eq.
Proof.
  destruct a as [[] | [] | | [] ma ea]; cbn [SFcompare]; try reflexivity;
    try (destruct b as [[] | [] | | [] mb eb]; discriminate);
    intros _; rewrite Z.compare_refl, Pos.compare_cont_refl; reflexivity.
Qed.

Lemma num_lt_self (x y : float) : num_lt x y = true -> num_eq x x = true.
Proof.
  unfold num_lt, num_eq. rewrite ltb_spec, eqb_spec. unfold SFltb, SFeqb.
  destruct (SFcompare (Prim2SF x) (Prim2SF y)) as [c |] eqn:Hxy;
    [| discriminate].
  intros _. rewrite (SFcompare_refl _ _ _ Hxy). reflexivity.
Qed.

Lemma num_lt_trans (x y z : float) :
  num_lt x y = true -> num_lt y z = true -> num_lt x z = true.
Proof.
  unfold num_lt. rewrite !ltb_spec. unfold SFltb.
  destruct (SFcompare (Prim2SF x) (Prim2SF y)) as [[| |] |] eqn:Hxy;
    try discriminate.
  destruct (SFcompare (Prim2SF y) (Prim2SF z)) as [[| |] |] eqn:Hyz;
    try discriminate.
  rewrite (SFcompare_Lt_trans _ _ _ Hxy Hyz). reflexivity.
Qed.
End NumberFacts.

(** ** What a handler can end in *)

(** A callback that does not throw makes [find_may_throw] the plain
    [find]. *)
Lemma find_may_throw_converted {A : Type} (test : A -> float -> bool)
    (n : float) (l : list A) :
  find_may_throw (fun a => option_map (test a) (Some n)) l
  = Some (find (fun a => test a n) l).
Proof.
  induction l as [| a l IH]; cbn [find_may_throw find option_map];
    [reflexivity |].
  destruct (test a n); [reflexivity | exact IH].
Qed.

Section Outcomes.
Context {E : Engine}.

(** [POST /api/employees] ends either in an error answer with nothing
    written, or in 201 with one written document: the old one with the new
    employee at the end and the employee counter incremented. *)
Lemma post_employees_outcome (req : Request) (w : World) :
  (file (snd (post_employees req w)) = file w
   /\ writes (snd (post_employees req w)) = writes w
   /\ (400 <= status (fst (post_employees req w)))%Z)
  \/ (exists newEmployee,
        fst (post_employees req w) = status_json 201 (EmployeeBody newEmployee)
        /\ Employee.id newEmployee = nextEmployeeId (loaded w)
        /\ Employee.employee_code newEmployee = get "employee_code" (body req)
        /\ (forall emp, In emp (employees (loaded w)) ->
              strict_eq (Employee.employee_code emp)
                        (Employee.employee_code newEmployee) = false)
        /\ writable w = true
        /\ snd (post_employees req w)
           = let data :=
               {| employees := employees (loaded w) ++ [newEmployee];
                  payrolls := payrolls (loaded w);
                  nextEmployeeId := PrimFloat.add (nextEmployeeId (loaded w)) 1;
                  nextPayrollId := nextPayrollId (loaded w) |} in
             {| file := Holds data; writable := true;
                reads := S (reads w); writes := writes w ++ [data] |}).
Proof.
  unfold post_employees. rewrite employee_presence_test.
  destruct (all_present employee_required (body req)); cbn [negb];
    [| left; cbn; repeat split; lia].
  destruct (or_else (isNaN _) (le_zero _)) as [[|] |]; cbn [evaluating];
    try (left; cbn; repeat split; lia).
  rewrite (readData_pair w).
  destruct (find _ (employees (loaded w))) as [existing |] eqn:Hfind;
    [left; cbn [fst snd]; rewrite readData_world; cbn; repeat split; lia |].
  destruct (parseFloat (get "salary" (body req))) as [salary_number |];
    cbn [evaluating];
    [| left; cbn [fst snd]; rewrite readData_world; cbn; repeat split; lia].
  cbv zeta. unfold writeData. rewrite readData_world. cbn [writable].
  destruct (writable w) eqn:Hwritable; cbn [fst snd];
    [| left; cbn; repeat split; lia].
  right. eexists. split; [reflexivity |]. cbn [Employee.id Employee.employee_code].
  repeat split. exact (find_none _ _ Hfind).
Qed.

(** [POST /api/payrolls] ends either in an error answer with nothing written,
    or in 201 with one written document: the old one with the new entry at
    the end, naming an employee of the document, and the payroll counter
    incremented. *)
Lemma post_payrolls_outcome (req : Request) (w : World) :
  (file (snd (post_payrolls req w)) = file w
   /\ writes (snd (post_payrolls req w)) = writes w
   /\ (400 <= status (fst (post_payrolls req w)))%Z)
  \/ (exists newPayroll emp,
        fst (post_payrolls req w) = status_json 201 (PayrollBody newPayroll)
        /\ Payroll.id newPayroll = nextPayrollId (loaded w)
        /\ In emp (employees (loaded w))
        /\ num_eq (Employee.id emp) (Payroll.employee_id newPayroll) = true
        /\ parseInt (get "employee_id" (body req))
           = Some (Payroll.employee_id newPayroll)
        /\ writable w = true
        /\ snd (post_payrolls req w)
           = let data :=
               {| employees := employees (loaded w);
                  payrolls := payrolls (loaded w) ++ [newPayroll];
                  nextEmployeeId := nextEmployeeId (loaded w);
                  nextPayrollId := PrimFloat.add (nextPayrollId (loaded w)) 1 |} in
             {| file := Holds data; writable := true;
                reads := S (reads w); writes := writes w ++ [data] |}).
Proof.
  unfold post_payrolls. rewrite payroll_presence_test.
  destruct (all_present payroll_required (body req)); cbn [negb];
    [| left; cbn; repeat split; lia].
  destruct (or_else (isNaN _) (le_zero _)) as [[|] |]; cbn [evaluating];
    try (left; cbn; repeat split; lia).
  destruct (or_else (isNaN _) (lt_zero _)) as [[|] |]; cbn [evaluating];
    try (left; cbn; repeat split; lia).
  rewrite (readData_pair w).
  destruct (parseInt (get "employee_id" (body req))) as [n |] eqn:Hid.
  2: { destruct (employees (loaded w)); cbn [find_may_throw option_map evaluating];
       left; cbn [fst snd]; rewrite readData_world; cbn; repeat split; lia. }
  rewrite (find_may_throw_converted
             (fun emp n => num_eq (Employee.id emp) n) n).
  cbn [evaluating].
  destruct (find _ (employees (loaded w))) as [emp |] eqn:Hemp;
    [| left; cbn [fst snd]; rewrite readData_world; cbn; repeat split; lia].
  destruct (parseFloat (get "gross_pay" (body req))); cbn [evaluating];
    [| left; cbn [fst snd]; rewrite readData_world; cbn; repeat split; lia].
  destruct (parseFloat (default_to _ _)); cbn [evaluating];
    [| left; cbn [fst snd]; rewrite readData_world; cbn; repeat split; lia].
  cbv zeta. unfold writeData. rewrite readData_world. cbn [writable].
  destruct (writable w) eqn:Hwritable; cbn [fst snd];
    [| left; cbn; repeat split; lia].
  right. eexists. exists emp. split; [reflexivity |].
  cbn [Payroll.id Payroll.employee_id].
  destruct (find_some _ _ Hemp) as [Hin Hsame]. repeat split; assumption.
Qed.

(** [DELETE /api/employees/:id] ends either in an error answer with nothing
    written, or in 200 with one written document: the old one without the
    first employee of that id and without the payroll entries of that id. *)
Lemma delete_employee_outcome (req : Request) (w : World) :
  (file (snd (delete_employee req w)) = file w
   /\ writes (snd (delete_employee req w)) = writes w
   /\ (400 <= status (fst (delete_employee req w)))%Z)
  \/ (exists before removed after,
        employees (loaded w) = before ++ removed :: after
        /\ num_eq (Employee.id removed) (parseInt_string (param req)) = true
        /\ (forall emp, In emp before ->
              num_eq (Employee.id emp) (parseInt_string (param req)) = false)
        /\ fst (delete_employee req w)
           = json (MessageBody "Employee and associated payroll entries deleted successfully")
        /\ writable w = true
        /\ snd (delete_employee req w)
           = let data :=
               {| employees := before ++ after;
                  payrolls :=
                    filter (fun p => negb (num_eq (Payroll.employee_id p)
                                                  (parseInt_string (param req))))
                           (payrolls (loaded w));
                  nextEmployeeId := nextEmployeeId (loaded w);
                  nextPayrollId := nextPayrollId (loaded w) |} in
             {| file := Holds data; writable := true;
                reads := S (reads w); writes := writes w ++ [data] |}).
Proof.
  unfold delete_employee. rewrite (readData_pair w).
  destruct (findIndex _ (employees (loaded w))) as [i |] eqn:Hindex;
    [| left; cbn [fst snd]; rewrite readData_world; cbn; repeat split; lia].
  destruct (findIndex_some _ _ _ Hindex)
    as (before & removed & after & Hsplit & _ & Hremoved & Hbefore & Hsplice).
  rewrite Hsplice. unfold writeData. rewrite readData_world. cbn [writable].
  destruct (writable w) eqn:Hwritable; cbn [fst snd];
    [| left; cbn; repeat split; lia].
  right. exists before, removed, after. repeat split; assumption.
Qed.

(** The routes without [authenticateAdmin] write nothing. *)
Lemma public_route_outcome (key : option string) (r : Route) (req : Request)
    (w : World) :
  protected r = false ->
  file (snd (serve key r req w)) = file w
  /\ writes (snd (serve key r req w)) = writes w.
Proof.
  destruct r; cbn [protected serve]; intros Hpublic; try discriminate;
    try (split; reflexivity).
  - unfold get_employees. rewrite (readData_pair w). cbn [snd].
    rewrite readData_world. split; reflexivity.
  - unfold get_payrolls. rewrite (readData_pair w). cbn [snd].
    rewrite readData_world. split; reflexivity.
  - unfold get_payslip. rewrite (readData_pair w).
    destruct (find _ (payrolls (loaded w))) as [payroll |]; cbn [snd];
      [destruct (find _ (employees (loaded w))); cbn [snd] |];
      rewrite readData_world; split; reflexivity.
Qed.
End Outcomes.

(** ** The data file *)

Lemma loaded_written (d : Document) (b : bool) (n : nat) (history : list Document) :
  loaded {| file := Holds d; writable := b; reads := n; writes := history |} = d.
Proof. reflexivity. Qed.

(** X1: at start-up a file that exists is left as it is, whatever it holds;
    a missing file is created with the empty document, which is what
    [readData] returns afterwards, and when that first write fails nothing
    catches the exception: the server does not start. *)
Theorem initializeDataFile_start (w : World) :
  initializeDataFile true w = Some w
  /\ (writable w = true ->
      exists w', initializeDataFile false w = Some w'
                 /\ file w' = Holds emptyDocument
                 /\ fst (readData w') = emptyDocument
                 /\ writes w' = writes w ++ [emptyDocument])
  /\ (writable w = false -> initializeDataFile false w = None).
Proof.
  unfold initializeDataFile. cbn [negb]. split; [reflexivity |].
  split; intros ->; [| reflexivity].
  eexists. split; [reflexivity |]. repeat split.
Qed.

Lemma initializeDataFile_start_witness :
  (exists w', initializeDataFile false Example.unreadable = Some w'
              /\ fst (readData w') = emptyDocument)
  /\ initializeDataFile false (set_writable false Example.unreadable) = None.
Proof.
  destruct (initializeDataFile_start Example.unreadable) as (_ & Hcreated & _).
  destruct (initializeDataFile_start (set_writable false Example.unreadable))
    as (_ & _ & Hfailed).
  split.
  - destruct (Hcreated eq_refl) as (w' & Hstart & _ & Hread & _).
    exists w'. split; assumption.
  - apply Hfailed. reflexivity.
Defined.

(** ** A file that cannot be read *)

Section UnreadableFile.
Context {E : Engine}.

Lemma loaded_unreadable (w : World) :
  file w = Unreadable \/ (exists text, file w = Unparsable text) ->
  loaded w = emptyDocument.
Proof.
  unfold loaded, readData. intros [-> | [text ->]]; reflexivity.
Qed.

(** X2: while the file cannot be read or parsed the server behaves as on an
    empty document, and the failure is reported to nobody: both lists are
    answered empty with status 200, no employee can be deleted and no payroll
    entry created (and the file is left alone), and the first valid employee
    creation is answered 201 with id 1 and overwrites the file with a
    document that holds this one employee. *)
Theorem unreadable_file_reads_as_empty (req : Request) (w : World) :
  file w = Unreadable \/ (exists text, file w = Unparsable text) ->
  fst (get_employees req w) = json (EmployeesBody [])
  /\ fst (get_payrolls req w) = json (PayrollsBody [])
  /\ fst (delete_employee req w)
     = status_json 404 (ErrorBody "Employee not found")
  /\ file (snd (delete_employee req w)) = file w
  /\ (400 <= status (fst (post_payrolls req w)))%Z
  /\ file (snd (post_payrolls req w)) = file w
  /\ (all_present employee_required (body req) = true ->
      isNaN (get "salary" (body req)) = Some false ->
      le_zero (get "salary" (body req)) = Some false ->
      writable w = true ->
      exists newEmployee,
        fst (post_employees req w) = status_json 201 (EmployeeBody newEmployee)
        /\ Employee.id newEmployee = 1%float
        /\ file (snd (post_employees req w))
           = Holds {| employees := [newEmployee]; payrolls := [];
                      nextEmployeeId := 2; nextPayrollId := 1 |}).
Proof.
  intros Hfile. pose proof (loaded_unreadable w Hfile) as Hloaded.
  split; [unfold get_employees; rewrite (readData_pair w), Hloaded; reflexivity |].
  split; [unfold get_payrolls; rewrite (readData_pair w), Hloaded; reflexivity |].
  assert (Hdelete : delete_employee req w
                    = (status_json 404 (ErrorBody "Employee not found"),
                       snd (readData w))).
  { unfold delete_employee. rewrite (readData_pair w), Hloaded. reflexivity. }
  rewrite Hdelete. cbn [fst snd]. rewrite readData_world. cbn [file].
  split; [reflexivity |]. split; [reflexivity |].
  split; [| split].
  - destruct (post_payrolls_outcome req w)
      as [(_ & _ & Hstatus) | (p & emp & _ & _ & Hin & _)]; [exact Hstatus |].
    rewrite Hloaded in Hin. destruct Hin.
  - destruct (post_payrolls_outcome req w)
      as [(Hsame & _) | (p & emp & _ & _ & Hin & _)]; [exact Hsame |].
    rewrite Hloaded in Hin. destruct Hin.
  - intros Hpresent Hnan Hle Hwritable.
    destruct (post_employees_validated req w Hpresent Hnan Hle)
      as (salary_number & _ & ->).
    rewrite Hloaded, Hwritable. cbn [employees find]. cbv zeta.
    eexists. cbn [fst snd file]. split; [reflexivity |].
    split; reflexivity.
Qed.
End UnreadableFile.

Lemma unreadable_file_reads_as_empty_witness :
  exists newEmployee,
    fst (post_employees (E := Ecma.engine)
           (Example.request Example.admin Scenario.bo "") Scenario.corrupt)
    = status_json 201 (EmployeeBody newEmployee)
    /\ file (snd (post_employees (E := Ecma.engine)
                    (Example.request Example.admin Scenario.bo "")
                    Scenario.corrupt))
       = Holds {| employees := [newEmployee]; payrolls := [];
                  nextEmployeeId := 2; nextPayrollId := 1 |}.
Proof.
  destruct (unreadable_file_reads_as_empty (E := Ecma.engine)
              (Example.request Example.admin Scenario.bo "") Scenario.corrupt)
    as (_ & _ & _ & _ & _ & _ & Hcreate).
  - right. eexists. reflexivity.
  - destruct Hcreate as (newEmployee & Hresponse & _ & Hfile);
      try (vm_compute; reflexivity).
    exists newEmployee. split; assumption.
Defined.

(** ** One request, at most one write *)

Section Atomicity.
Context {E : Engine}.
Variable env_ADMIN_KEY : option string.



End Atomicity.


(** ** Creating a payroll entry *)

Section PayrollCreation.
Context {E : Engine}.

End PayrollCreation.


(** ** Invariants of the document *)

Section Invariants.
Context {E : Engine}.
Variable env_ADMIN_KEY : option string.

(** A property of the document that the three writing handlers keep, from a
    world in which [Q] holds, is kept by every route. *)
Lemma serve_invariant (P : Document -> Prop) (Q : World -> Prop) :
  (forall req w, Q w -> P (loaded w) -> P (loaded (snd (post_employees req w)))) ->
  (forall req w, Q w -> P (loaded w) -> P (loaded (snd (post_payrolls req w)))) ->
  (forall req w, Q w -> P (loaded w) -> P (loaded (snd (delete_employee req w)))) ->
  forall r req w, Q w -> P (loaded w) ->
    P (loaded (snd (serve env_ADMIN_KEY r req w))).
Proof.
  intros Hemployees Hpayrolls Hdelete r req w HQ HP.
  destruct (protected r) eqn:Hprotected.
  - destruct r; try discriminate; cbn [serve];
      rewrite authenticateAdmin_unfold;
      destruct (authorized env_ADMIN_KEY req); auto.
  - destruct (public_route_outcome env_ADMIN_KEY r req w Hprotected) as [Hfile _].
    rewrite (loaded_same_file w _ Hfile). exact HP.
Qed.

(** *** Every payroll entry names an employee *)

Lemma post_employees_keeps_referential (req : Request) (w : World) :
  referential (loaded w) -> referential (loaded (snd (post_employees req w))).
Proof.
  intros Href.
  destruct (post_employees_outcome req w)
    as [(Hfile & _) | (e & _ & _ & _ & _ & _ & ->)].
  - rewrite (loaded_same_file w _ Hfile). exact Href.
  - cbv zeta. rewrite loaded_written. intros p Hp. cbn [payrolls] in Hp.
    destruct (Href p Hp) as (emp & Hin & Hsame).
    exists emp. cbn [employees]. split; [| exact Hsame].
    apply in_or_app. left. exact Hin.
Qed.

Lemma post_payrolls_keeps_referential (req : Request) (w : World) :
  referential (loaded w) -> referential (loaded (snd (post_payrolls req w))).
Proof.
  intros Href.
  destruct (post_payrolls_outcome req w)
    as [(Hfile & _) | (newPayroll & emp & _ & _ & Hin & Hsame & _ & _ & ->)].
  - rewrite (loaded_same_file w _ Hfile). exact Href.
  - cbv zeta. rewrite loaded_written. intros p Hp. cbn [payrolls employees] in *.
    apply in_app_or in Hp. destruct Hp as [Hp | [<- | []]].
    + exact (Href p Hp).
    + exists emp. split; assumption.
Qed.

Lemma delete_employee_keeps_referential (req : Request) (w : World) :
  referential (loaded w) -> referential (loaded (snd (delete_employee req w))).
Proof.
  intros Href.
  destruct (delete_employee_outcome req w)
    as [(Hfile & _)
       | (before & removed & after & Hsplit & Hremoved & _ & _ & _ & ->)].
  - rewrite (loaded_same_file w _ Hfile). exact Href.
  - cbv zeta. rewrite loaded_written. intros p Hp. cbn [payrolls employees] in *.
    apply filter_In in Hp. destruct Hp as [Hp Hkept].
    apply negb_true_iff in Hkept.
    destruct (Href p Hp) as (emp & Hin & Hsame).
    exists emp. split; [| exact Hsame].
    rewrite Hsplit in Hin. apply in_app_or in Hin. apply in_or_app.
    destruct Hin as [Hin | [<- | Hin]]; [left; exact Hin | | right; exact Hin].
    exfalso.
    rewrite <- (NumberFacts.num_eq_left _ _ _ Hsame) in Hkept.
    rewrite Hremoved in Hkept. discriminate.
Qed.

(** X5: referential integrity is kept by every route: when every payroll
    entry of the document names the id of an employee of the document, so
    does every entry of the document the request leaves.  Deleting an
    employee takes the entries of that id along, and a payroll entry is only
    created for an id that [===] the id of an employee. *)
Theorem serve_keeps_referential (r : Route) (req : Request) (w : World) :
  referential (loaded w) ->
  referential (loaded (snd (serve env_ADMIN_KEY r req w))).
Proof.
  apply (serve_invariant referential (fun _ => True)); auto.
  - intros req' w' _. apply post_employees_keeps_referential.
  - intros req' w' _. apply post_payrolls_keeps_referential.
  - intros req' w' _. apply delete_employee_keeps_referential.
Qed.

Lemma reachable_referential (w : World) :
  reachable env_ADMIN_KEY w -> referential (loaded w).
Proof.
  induction 1 as [w Hstart | w r req Hreach IH | w b Hreach IH].
  - rewrite Hstart. intros p [].
  - apply (serve_invariant referential (fun _ => True)); auto.
    + intros req' w' _. apply post_employees_keeps_referential.
    + intros req' w' _. apply post_payrolls_keeps_referential.
    + intros req' w' _. apply delete_employee_keeps_referential.
  - rewrite (loaded_same_file w (set_writable b w) eq_refl). exact IH.
Qed.

(** X6: in every world the server reaches from an empty document by serving
    requests (while the disk may turn writable or not), every payroll entry
    names an employee, so the payslip route never answers [Employee not found
    for this payroll entry]: a payslip request is answered 404 [Payroll entry
    not found] when no entry has the id, and otherwise 200 with the first
    entry of that id and the public fields of the first employee whose id
    [===] the entry's [employee_id]. *)
Theorem reachable_payslip_has_employee (req : Request) (w : World) :
  reachable env_ADMIN_KEY w ->
  referential (loaded w)
  /\ fst (get_payslip req w)
     <> status_json 404 (ErrorBody "Employee not found for this payroll entry")
  /\ (fst (get_payslip req w)
      = status_json 404 (ErrorBody "Payroll entry not found")
      \/ exists payroll employee,
           In payroll (payrolls (loaded w))
           /\ num_eq (Payroll.id payroll) (parseInt_string (param req)) = true
           /\ In employee (employees (loaded w))
           /\ num_eq (Employee.id employee) (Payroll.employee_id payroll) = true
           /\ fst (get_payslip req w)
              = json (PayslipBody payroll
                        {| info_id := Employee.id employee;
                           info_employee_code := Employee.employee_code employee;
                           info_first_name := Employee.first_name employee;
                           info_last_name := Employee.last_name employee;
                           info_designation := Employee.designation employee;
                           info_department := Employee.department employee;
                           info_email := Employee.email employee;
                           info_bank_account := Employee.bank_account employee |})).
Proof.
  intros Hreach. pose proof (reachable_referential w Hreach) as Href.
  split; [exact Href |].
  unfold get_payslip. rewrite (readData_pair w).
  destruct (find _ (payrolls (loaded w))) as [payroll |] eqn:Hpayroll.
  2: { split; [discriminate | left; reflexivity]. }
  destruct (find_some _ _ Hpayroll) as [Hin Hid].
  destruct (Href payroll Hin) as (emp & Hemp & Hsame).
  destruct (find_exists
              (fun emp => num_eq (Employee.id emp) (Payroll.employee_id payroll))
              _ emp Hemp Hsame) as (employee & Hemployee).
  rewrite Hemployee. cbn [fst].
  split; [discriminate |]. right.
  destruct (find_some _ _ Hemployee) as [Hein Hesame].
  exists payroll, employee. repeat split; assumption.
Qed.
End Invariants.

Lemma serve_keeps_referential_witness :
  referential (loaded Example.with_payroll)
  /\ referential
       (loaded (snd (serve (E := Ecma.engine) Example.no_key DeleteEmployee
                       (Example.request Example.admin [] "1")
                       Example.with_payroll))).
Proof.
  assert (Href : referential (loaded Example.with_payroll)).
  { intros p Hp. vm_compute in Hp. destruct Hp as [<- | []].
    eexists. split; [vm_compute; left; reflexivity | vm_compute; reflexivity]. }
  split; [exact Href |].
  apply (serve_keeps_referential (E := Ecma.engine)). exact Href.
Defined.

Lemma reachable_payslip_has_employee_witness :
  fst (get_payslip (E := Ecma.engine) (Example.request None [] "1")
         (snd (serve (E := Ecma.engine) Example.no_key PostPayrolls
                 (Example.request Example.admin (Example.january (JNum 1)) "")
                 (snd (serve (E := Ecma.engine) Example.no_key PostEmployees
                         (Example.request Example.admin Example.ann "")
                         Example.fresh)))))
  <> status_json 404 (ErrorBody "Employee not found for this payroll entry").
Proof.
  apply (reachable_payslip_has_employee (E := Ecma.engine) Example.no_key).
  apply reachable_serve. apply reachable_serve. apply reachable_start.
  reflexivity.
Defined.

(** *** The ids grow with the counters *)

Lemma StronglySorted_remove {A : Type} (R : A -> A -> Prop)
    (before after : list A) (x : A) :
  StronglySorted R (before ++ x :: after) -> StronglySorted R (before ++ after).
Proof.
  induction before as [| a before IH]; cbn [app]; intros Hsorted.
  - apply StronglySorted_inv in Hsorted. tauto.
  - apply StronglySorted_inv in Hsorted. destruct Hsorted as [Htail Hhead].
    constructor; [apply IH; exact Htail |].
    rewrite Forall_app in *. destruct Hhead as [Hb Ha].
    split; [exact Hb | exact (Forall_inv_tail Ha)].
Qed.

Lemma StronglySorted_filter {A : Type} (R : A -> A -> Prop) (p : A -> bool)
    (l : list A) :
  StronglySorted R l -> StronglySorted R (filter p l).
Proof.
  induction l as [| a l IH]; cbn [filter]; intros Hsorted; [constructor |].
  apply StronglySorted_inv in Hsorted. destruct Hsorted as [Htail Hhead].
  destruct (p a); [| apply IH; exact Htail].
  constructor; [apply IH; exact Htail |].
  rewrite Forall_forall in *. intros y Hy. apply Hhead.
  apply filter_In in Hy. tauto.
Qed.

Lemma StronglySorted_append {A : Type} (R : A -> A -> Prop) (l : list A) (x : A) :
  StronglySorted R l -> Forall (fun a => R a x) l -> StronglySorted R (l ++ [x]).
Proof.
  induction l as [| a l IH]; cbn [app]; intros Hsorted Hall.
  - constructor; constructor.
  - apply StronglySorted_inv in Hsorted. destruct Hsorted as [Htail Hhead].
    constructor; [apply IH; [exact Htail | exact (Forall_inv_tail Hall)] |].
    rewrite Forall_app. split; [exact Hhead |].
    constructor; [exact (Forall_inv Hall) | constructor].
Qed.

(** In a strongly sorted list an element is related to none but itself by a
    relation that excludes the order. *)
Lemma StronglySorted_distinct {A : Type} (id : A -> float)
    (before after : list A) (x : A) :
  StronglySorted (fun a b => num_lt (id a) (id b) = true) (before ++ x :: after) ->
  forall y, In y (before ++ after) -> num_eq (id y) (id x) = false.
Proof.
  induction before as [| a before IH]; cbn [app]; intros Hsorted y Hy.
  - apply StronglySorted_inv in Hsorted. destruct Hsorted as [_ Hhead].
    rewrite Forall_forall in Hhead.
    apply NumberFacts.num_lt_not_eq_sym. apply Hhead. exact Hy.
  - apply StronglySorted_inv in Hsorted. destruct Hsorted as [Htail Hhead].
    destruct Hy as [<- | Hy]; [| exact (IH Htail y Hy)].
    rewrite Forall_forall in Hhead.
    apply NumberFacts.num_lt_not_eq. apply Hhead.
    apply in_or_app. right. left. reflexivity.
Qed.

Lemma numbered_append {A : Type} (id : A -> float) (l : list A) (x : A)
    (next : float) :
  numbered id l next -> id x = next -> can_grow next = true ->
  numbered id (l ++ [x]) (PrimFloat.add next 1).
Proof.
  intros [Hsorted Hbelow] Hid Hgrow. unfold can_grow in Hgrow. split.
  - apply StronglySorted_append; [exact Hsorted |]. rewrite Hid. exact Hbelow.
  - rewrite Forall_app. split.
    + rewrite Forall_forall in *. intros a Ha.
      apply (NumberFacts.num_lt_trans _ next); [apply Hbelow; exact Ha | exact Hgrow].
    + constructor; [rewrite Hid; exact Hgrow | constructor].
Qed.

Lemma numbered_remove {A : Type} (id : A -> float) (before after : list A)
    (x : A) (next : float) :
  numbered id (before ++ x :: after) next -> numbered id (before ++ after) next.
Proof.
  intros [Hsorted Hbelow]. split.
  - exact (StronglySorted_remove _ _ _ _ Hsorted).
  - rewrite Forall_app in *. destruct Hbelow as [Hb Ha].
    split; [exact Hb | exact (Forall_inv_tail Ha)].
Qed.

Lemma numbered_filter {A : Type} (id : A -> float) (p : A -> bool)
    (l : list A) (next : float) :
  numbered id l next -> numbered id (filter p l) next.
Proof.
  intros [Hsorted Hbelow]. split.
  - apply StronglySorted_filter. exact Hsorted.
  - rewrite Forall_forall in *. intros a Ha. apply Hbelow.
    apply filter_In in Ha. tauto.
Qed.

Section Numbering.
Context {E : Engine}.
Variable env_ADMIN_KEY : option string.

Lemma post_employees_keeps_well_numbered (req : Request) (w : World) :
  counters_can_grow w -> well_numbered (loaded w) ->
  well_numbered (loaded (snd (post_employees req w))).
Proof.
  intros [Hgrow _] [Hemployees Hpayrolls].
  destruct (post_employees_outcome req w)
    as [(Hfile & _) | (e & _ & Hid & _ & _ & _ & ->)].
  - rewrite (loaded_same_file w _ Hfile). split; assumption.
  - cbv zeta. rewrite loaded_written. split; cbn; [| exact Hpayrolls].
    apply numbered_append; assumption.
Qed.

Lemma post_payrolls_keeps_well_numbered (req : Request) (w : World) :
  counters_can_grow w -> well_numbered (loaded w) ->
  well_numbered (loaded (snd (post_payrolls req w))).
Proof.
  intros [_ Hgrow] [Hemployees Hpayrolls].
  destruct (post_payrolls_outcome req w)
    as [(Hfile & _) | (p & emp & _ & Hid & _ & _ & _ & _ & ->)].
  - rewrite (loaded_same_file w _ Hfile). split; assumption.
  - cbv zeta. rewrite loaded_written. split; cbn; [exact Hemployees |].
    apply numbered_append; assumption.
Qed.

Lemma delete_employee_keeps_well_numbered (req : Request) (w : World) :
  counters_can_grow w -> well_numbered (loaded w) ->
  well_numbered (loaded (snd (delete_employee req w))).
Proof.
  intros _ [Hemployees Hpayrolls].
  destruct (delete_employee_outcome req w)
    as [(Hfile & _)
       | (before & removed & after & Hsplit & _ & _ & _ & _ & ->)].
  - rewrite (loaded_same_file w _ Hfile). split; assumption.
  - cbv zeta. rewrite loaded_written. rewrite Hsplit in Hemployees.
    split; cbn.
    + exact (numbered_remove _ _ _ _ _ Hemployees).
    + apply numbered_filter. exact Hpayrolls.
Qed.

(** X7: as long as both counters can still be incremented (adding 1 gives a
    larger double, which fails only from [2^53] on), every route keeps the
    document well numbered: in each list the ids grow strictly along the
    list and stay below the list's counter.  So an id is never given twice,
    not even after deletions, which leave the counters where they are. *)
Theorem serve_keeps_well_numbered (r : Route) (req : Request) (w : World) :
  well_numbered (loaded w) ->
  can_grow (nextEmployeeId (loaded w)) = true ->
  can_grow (nextPayrollId (loaded w)) = true ->
  well_numbered (loaded (snd (serve env_ADMIN_KEY r req w))).
Proof.
  intros Hnumbered Hemployees Hpayrolls.
  apply (serve_invariant env_ADMIN_KEY well_numbered counters_can_grow).
  - apply post_employees_keeps_well_numbered.
  - apply post_payrolls_keeps_well_numbered.
  - apply delete_employee_keeps_well_numbered.
  - split; assumption.
  - exact Hnumbered.
Qed.

End Numbering.

Lemma serve_keeps_well_numbered_witness :
  well_numbered (loaded Example.with_payroll)
  /\ well_numbered
       (loaded (snd (serve (E := Ecma.engine) Example.no_key PostEmployees
                       (Example.request Example.admin Scenario.bo "")
                       Example.with_payroll))).
Proof.
  assert (Hnumbered : well_numbered (loaded Example.with_payroll)).
  { split; split; vm_compute; repeat constructor. }
  split; [exact Hnumbered |].
  apply (serve_keeps_well_numbered (E := Ecma.engine)); [exact Hnumbered | |];
    vm_compute; reflexivity.
Defined.


(** ** Ids that nothing has *)

Lemma findIndex_all_false {A : Type} (p : A -> bool) (l : list A) :
  (forall x, In x l -> p x = false) -> findIndex p l = None.
Proof.
  induction l as [| a l IH]; cbn [findIndex]; intros Hall; [reflexivity |].
  rewrite (Hall a (or_introl eq_refl)). rewrite IH; [reflexivity |].
  intros x Hx. apply Hall. right. exact Hx.
Qed.

Lemma findIndex_first {A : Type} (p : A -> bool) (before after : list A) (x : A) :
  (forall y, In y before -> p y = false) -> p x = true ->
  findIndex p (before ++ x :: after) = Some (List.length before)
  /\ splice1 (List.length before) (before ++ x :: after) = before ++ after.
Proof.
  intros Hbefore Hx. induction before as [| a before IH]; cbn.
  - rewrite Hx. split; reflexivity.
  - rewrite (Hbefore a (or_introl eq_refl)).
    destruct IH as [-> Hsplice]; [intros y Hy; apply Hbefore; right; exact Hy |].
    split; [reflexivity |]. unfold splice1 in *. cbn. f_equal. exact Hsplice.
Qed.

Section UnknownIds.
Context {E : Engine}.

(** X9: an id that no record has is answered 404 and nothing is written:
    [Employee not found] by the delete route when no employee has it,
    [Payroll entry not found] by the payslip route when no payroll entry has
    it.  That is the answer in particular when the path parameter is not a
    number: [parseInt] gives [NaN], which is [===] to no id. *)
Theorem unknown_id_is_answered_404 (req : Request) (w : World) :
  ((forall emp, In emp (employees (loaded w)) ->
      num_eq (Employee.id emp) (parseInt_string (param req)) = false) ->
   fst (delete_employee req w) = status_json 404 (ErrorBody "Employee not found")
   /\ file (snd (delete_employee req w)) = file w
   /\ writes (snd (delete_employee req w)) = writes w)
  /\ ((forall p, In p (payrolls (loaded w)) ->
         num_eq (Payroll.id p) (parseInt_string (param req)) = false) ->
      fst (get_payslip req w)
      = status_json 404 (ErrorBody "Payroll entry not found"))
  /\ (PrimFloat.is_nan (parseInt_string (param req)) = true ->
      fst (delete_employee req w)
      = status_json 404 (ErrorBody "Employee not found")
      /\ fst (get_payslip req w)
         = status_json 404 (ErrorBody "Payroll entry not found")).
Proof.
  assert (Hdelete :
            (forall emp, In emp (employees (loaded w)) ->
               num_eq (Employee.id emp) (parseInt_string (param req)) = false) ->
            delete_employee req w
            = (status_json 404 (ErrorBody "Employee not found"), snd (readData w))).
  { intros Hnone. unfold delete_employee. rewrite (readData_pair w).
    rewrite (findIndex_all_false _ _ Hnone). reflexivity. }
  assert (Hpayslip :
            (forall p, In p (payrolls (loaded w)) ->
               num_eq (Payroll.id p) (parseInt_string (param req)) = false) ->
            fst (get_payslip req w)
            = status_json 404 (ErrorBody "Payroll entry not found")).
  { intros Hnone. unfold get_payslip. rewrite (readData_pair w).
    apply find_none_iff in Hnone. rewrite Hnone. reflexivity. }
  split; [| split].
  - intros Hnone. rewrite (Hdelete Hnone). cbn [fst snd].
    rewrite readData_world. repeat split.
  - exact Hpayslip.
  - intros Hnan. split.
    + rewrite Hdelete; [reflexivity |].
      intros emp _. apply NumberFacts.num_eq_nan. exact Hnan.
    + apply Hpayslip. intros p _. apply NumberFacts.num_eq_nan. exact Hnan.
Qed.
End UnknownIds.

Lemma unknown_id_is_answered_404_witness :
  fst (delete_employee (E := Ecma.engine)
         (Example.request Example.admin [] "abc") Example.with_payroll)
  = status_json 404 (ErrorBody "Employee not found")
  /\ fst (get_payslip (E := Ecma.engine)
            (Example.request None [] "7") Example.with_payroll)
     = status_json 404 (ErrorBody "Payroll entry not found").
Proof.
  destruct (unknown_id_is_answered_404 (E := Ecma.engine)
              (Example.request Example.admin [] "abc") Example.with_payroll)
    as (_ & _ & Hnan).
  destruct (unknown_id_is_answered_404 (E := Ecma.engine)
              (Example.request None [] "7") Example.with_payroll)
    as (_ & Hpayslip & _).
  split.
  - apply Hnan. vm_compute. reflexivity.
  - apply Hpayslip. intros p Hp. vm_compute in Hp. destruct Hp as [<- | []].
    vm_compute. reflexivity.
Defined.

(** ** After a deletion *)

Section AfterDeletion.
Context {E : Engine}.

(** A deletion that finds its employee on a writable disk. *)
Lemma delete_employee_found (req : Request) (w : World)
    (before after : list Employee.t) (removed : Employee.t) :
  employees (loaded w) = before ++ removed :: after ->
  (forall emp, In emp before ->
     num_eq (Employee.id emp) (parseInt_string (param req)) = false) ->
  num_eq (Employee.id removed) (parseInt_string (param req)) = true ->
  writable w = true ->
  delete_employee req w
  = (json (MessageBody "Employee and associated payroll entries deleted successfully"),
     let data :=
       {| employees := before ++ after;
          payrolls :=
            filter (fun p => negb (num_eq (Payroll.employee_id p)
                                          (parseInt_string (param req))))
                   (payrolls (loaded w));
          nextEmployeeId := nextEmployeeId (loaded w);
          nextPayrollId := nextPayrollId (loaded w) |} in
     {| file := Holds data; writable := true;
        reads := S (reads w); writes := writes w ++ [data] |}).
Proof.
  intros Hsplit Hbefore Hremoved Hwritable.
  unfold delete_employee. rewrite (readData_pair w), Hsplit.
  destruct (findIndex_first
              (fun emp => num_eq (Employee.id emp) (parseInt_string (param req)))
              before after removed Hbefore Hremoved) as [-> ->].
  unfold writeData. rewrite readData_world. cbn [writable].
  rewrite Hwritable. reflexivity.
Qed.

(** X10: once the delete route has answered 200 for an id, no payroll entry
    of the document has that id as [employee_id]: the payroll list is
    answered without those entries, no payslip is answered for one of them,
    and both counters are where they were, so the deleted id is not given
    again. *)
Theorem deleted_employee_leaves_no_payroll (req req' : Request) (w : World) :
  status (fst (delete_employee req w)) = 200%Z ->
  (forall p, In p (payrolls (loaded (snd (delete_employee req w)))) ->
     num_eq (Payroll.employee_id p) (parseInt_string (param req)) = false)
  /\ fst (get_payrolls req' (snd (delete_employee req w)))
     = json (PayrollsBody
               (filter (fun p => negb (num_eq (Payroll.employee_id p)
                                              (parseInt_string (param req))))
                       (payrolls (loaded w))))
  /\ (forall p info,
        fst (get_payslip req' (snd (delete_employee req w)))
        = json (PayslipBody p info) ->
        num_eq (Payroll.employee_id p) (parseInt_string (param req)) = false)
  /\ nextEmployeeId (loaded (snd (delete_employee req w)))
     = nextEmployeeId (loaded w)
  /\ nextPayrollId (loaded (snd (delete_employee req w)))
     = nextPayrollId (loaded w).
Proof.
  intros Hok.
  destruct (delete_employee_outcome req w)
    as [(_ & _ & Herror)
       | (before & removed & after & _ & _ & _ & _ & _ & Hworld)];
    [rewrite Hok in Herror; lia |].
  rewrite Hworld. cbv zeta.
  assert (Hgone : forall p,
             In p (filter (fun p => negb (num_eq (Payroll.employee_id p)
                                                 (parseInt_string (param req))))
                          (payrolls (loaded w))) ->
             num_eq (Payroll.employee_id p) (parseInt_string (param req)) = false).
  { intros p Hp. apply filter_In in Hp. destruct Hp as [_ Hkept].
    apply negb_true_iff. exact Hkept. }
  rewrite loaded_written. cbn [payrolls nextEmployeeId nextPayrollId].
  split; [exact Hgone |]. split; [reflexivity |]. split; [| split; reflexivity].
  intros p info. unfold get_payslip, readData. cbn [file fst snd payrolls employees].
  destruct (find _ (filter _ (payrolls (loaded w)))) as [payroll |] eqn:Hfound;
    [| discriminate].
  destruct (find _ (before ++ after)); [| discriminate].
  cbn [fst]. intros Hbody. injection Hbody as <- _.
  apply Hgone. exact (proj1 (find_some _ _ Hfound)).
Qed.
End AfterDeletion.

Lemma deleted_employee_leaves_no_payroll_witness :
  fst (get_payrolls (Example.request None [] "")
         (snd (delete_employee (E := Ecma.engine)
                 (Example.request Example.admin [] "1") Example.with_payroll)))
  = json (PayrollsBody []).
Proof.
  destruct (deleted_employee_leaves_no_payroll (E := Ecma.engine)
              (Example.request Example.admin [] "1")
              (Example.request None [] "") Example.with_payroll)
    as (_ & Hlist & _).
  - vm_compute. reflexivity.
  - rewrite Hlist. vm_compute. reflexivity.
Defined.

(** ** Creating an employee and deleting it again *)

Section RoundTrip.
Context {E : Engine}.

(** X11: creating an employee and then deleting the id it was given, in a
    well-numbered document whose payroll entries all name an employee,
    restores both lists as they were; the employee counter stays incremented,
    so the id is not given again. *)
Theorem create_then_delete_restores_lists (req req' : Request) (w : World)
    (newEmployee : Employee.t) :
  well_numbered (loaded w) ->
  referential (loaded w) ->
  can_grow (nextEmployeeId (loaded w)) = true ->
  fst (post_employees req w) = status_json 201 (EmployeeBody newEmployee) ->
  num_eq (Employee.id newEmployee) (parseInt_string (param req')) = true ->
  fst (delete_employee req' (snd (post_employees req w)))
  = json (MessageBody "Employee and associated payroll entries deleted successfully")
  /\ employees (loaded (snd (delete_employee req' (snd (post_employees req w)))))
     = employees (loaded w)
  /\ payrolls (loaded (snd (delete_employee req' (snd (post_employees req w)))))
     = payrolls (loaded w)
  /\ nextEmployeeId
       (loaded (snd (delete_employee req' (snd (post_employees req w)))))
     = PrimFloat.add (nextEmployeeId (loaded w)) 1
  /\ nextPayrollId
       (loaded (snd (delete_employee req' (snd (post_employees req w)))))
     = nextPayrollId (loaded w).
Proof.
  intros [[_ Hbelow] _] Href Hgrow Hcreated Hid.
  destruct (post_employees_outcome req w)
    as [(_ & _ & Herror) | (e & Hresponse & He & _ & _ & _ & Hworld)];
    [rewrite Hcreated in Herror; cbn in Herror; lia |].
  rewrite Hcreated in Hresponse. injection Hresponse as <-.
  rewrite Hworld. cbv zeta.
  assert (Hothers : forall emp, In emp (employees (loaded w)) ->
            num_eq (Employee.id emp) (parseInt_string (param req')) = false).
  { intros emp Hin. rewrite Forall_forall in Hbelow.
    rewrite <- (NumberFacts.num_eq_right _ _ _ Hid), He.
    apply NumberFacts.num_lt_not_eq. apply Hbelow. exact Hin. }
  rewrite (delete_employee_found req' _ (employees (loaded w)) []
             newEmployee);
    [| rewrite loaded_written; reflexivity
     | exact Hothers | exact Hid | reflexivity].
  cbv zeta. cbn [fst snd]. rewrite !loaded_written.
  cbn [employees payrolls nextEmployeeId nextPayrollId].
  split; [reflexivity |]. split; [apply app_nil_r |].
  split; [| split; reflexivity].
  apply filter_all. intros p Hp. apply negb_true_iff.
  destruct (Href p Hp) as (emp & Hin & Hsame).
  rewrite <- (NumberFacts.num_eq_left _ _ _ Hsame).
  apply Hothers. exact Hin.
Qed.
End RoundTrip.

Lemma create_then_delete_restores_lists_witness :
  employees
    (loaded (snd (delete_employee (E := Ecma.engine)
                    (Example.request Example.admin [] "2")
                    (snd (post_employees (E := Ecma.engine)
                            (Example.request Example.admin Scenario.bo "")
                            Example.with_payroll)))))
  = employees (loaded Example.with_payroll)
  /\ nextEmployeeId
       (loaded (snd (delete_employee (E := Ecma.engine)
                       (Example.request Example.admin [] "2")
                       (snd (post_employees (E := Ecma.engine)
                               (Example.request Example.admin Scenario.bo "")
                               Example.with_payroll)))))
     = 3%float.
Proof.
  destruct (create_then_delete_restores_lists (E := Ecma.engine)
              (Example.request Example.admin Scenario.bo "")
              (Example.request Example.admin [] "2") Example.with_payroll
              Scenario.bo_record)
    as (_ & Hemployees & _ & Hcounter & _).
  - split; split; vm_compute; repeat constructor.
  - intros p Hp. vm_compute in Hp. destruct Hp as [<- | []].
    eexists. split; [vm_compute; left; reflexivity | vm_compute; reflexivity].
  - vm_compute. reflexivity.
  - vm_compute. reflexivity.
  - vm_compute. reflexivity.
  - split; [exact Hemployees |]. rewrite Hcounter. vm_compute. reflexivity.
Defined.

(** ** Keys and headers with spaces *)




Section Spaces.
Context {E : Engine}.
Variable env_ADMIN_KEY : option string.



End Spaces.



(** ** The lists the client keeps *)

Lemma filter_same {A : Type} (p : A -> bool) (l : list A) :
  filter p l = l <-> (forall x, In x l -> p x = true).
Proof.
  split; [| apply filter_all].
  intros Hsame x Hin. rewrite <- Hsame in Hin. apply filter_In in Hin. tauto.
Qed.

Lemma filter_remove_one {A : Type} (p : A -> bool) (before after : list A)
    (x : A) :
  p x = false -> (forall y, In y (before ++ after) -> p y = true) ->
  filter p (before ++ x :: after) = before ++ after.
Proof.
  intros Hx Hothers. rewrite filter_app. cbn [filter]. rewrite Hx.
  rewrite <- filter_app. apply filter_all. exact Hothers.
Qed.

Section ClientLists.
Context {E : Engine}.

(** X14: the lists the client keeps without reloading.  After a creation
    answered 201 the client appends the answered employee, and after a
    deletion answered 200 it drops the employees whose id [===] the deleted
    one: starting from the server's list, both give the server's new list,
    the second in a well-numbered document.  The client's payroll list is
    not touched by a deletion: it is the server's new list only when the
    employee had no payroll entry. *)
Theorem client_lists_follow_server (req : Request) (w : World) :
  (forall newEmployee,
     fst (post_employees req w) = status_json 201 (EmployeeBody newEmployee) ->
     Client.push_employee newEmployee (employees (loaded w))
     = employees (loaded (snd (post_employees req w))))
  /\ (forall employeeId,
        well_numbered (loaded w) ->
        status (fst (delete_employee req w)) = 200%Z ->
        num_eq employeeId (parseInt_string (param req)) = true ->
        Client.drop_employee employeeId (employees (loaded w))
        = employees (loaded (snd (delete_employee req w))))
  /\ (status (fst (delete_employee req w)) = 200%Z ->
      (payrolls (loaded (snd (delete_employee req w))) = payrolls (loaded w)
       <-> forall p, In p (payrolls (loaded w)) ->
             num_eq (Payroll.employee_id p) (parseInt_string (param req))
             = false)).
Proof.
  split; [| split].
  - intros newEmployee Hcreated.
    destruct (post_employees_outcome req w)
      as [(_ & _ & Herror) | (e & Hresponse & _ & _ & _ & _ & ->)];
      [rewrite Hcreated in Herror; cbn in Herror; lia |].
    rewrite Hcreated in Hresponse. injection Hresponse as <-.
    cbv zeta. rewrite loaded_written. reflexivity.
  - intros employeeId [[Hsorted _] _] Hok Hid.
    destruct (delete_employee_outcome req w)
      as [(_ & _ & Herror)
         | (before & removed & after & Hsplit & Hremoved & _ & _ & _ & ->)];
      [rewrite Hok in Herror; lia |].
    cbv zeta. rewrite loaded_written. cbn [employees].
    rewrite Hsplit in *. unfold Client.drop_employee.
    assert (Hsame : num_eq (Employee.id removed) employeeId = true).
    { rewrite (NumberFacts.num_eq_right _ _ _ Hid). exact Hremoved. }
    apply filter_remove_one.
    + rewrite Hsame. reflexivity.
    + intros other Hother. apply negb_true_iff.
      rewrite <- (NumberFacts.num_eq_right _ _ _ Hsame).
      exact (StronglySorted_distinct _ _ _ _ Hsorted other Hother).
  - intros Hok.
    destruct (delete_employee_outcome req w)
      as [(_ & _ & Herror)
         | (before & removed & after & _ & _ & _ & _ & _ & ->)];
      [rewrite Hok in Herror; lia |].
    cbv zeta. rewrite loaded_written. cbn [payrolls].
    rewrite filter_same. split; intros Hall p Hp.
    + apply negb_true_iff. exact (Hall p Hp).
    + apply negb_true_iff. exact (Hall p Hp).
Qed.
End ClientLists.

Lemma client_lists_follow_server_witness :
  Client.drop_employee 1 (employees (loaded Scenario.with_bo))
  = employees
      (loaded (snd (delete_employee (E := Ecma.engine)
                      (Example.request Example.admin [] "1")
                      Scenario.with_bo)))
  /\ payrolls
       (loaded (snd (delete_employee (E := Ecma.engine)
                       (Example.request Example.admin [] "1")
                       Scenario.with_bo)))
     <> payrolls (loaded Scenario.with_bo).
Proof.
  destruct (client_lists_follow_server (E := Ecma.engine)
              (Example.request Example.admin [] "1") Scenario.with_bo)
    as (_ & Hdrop & Hstale).
  split.
  - apply Hdrop; [split; split; vm_compute; repeat constructor | |];
      vm_compute; reflexivity.
  - intros Hsame.
    assert (Hok : status (fst (delete_employee (E := Ecma.engine)
                                 (Example.request Example.admin [] "1")
                                 Scenario.with_bo)) = 200%Z)
      by (vm_compute; reflexivity).
    pose proof (proj1 (Hstale Hok) Hsame) as Hnone.
    assert (Hentry : exists p, In p (payrolls (loaded Scenario.with_bo))
                               /\ Payroll.employee_id p = 1%float)
      by (eexists; split; [vm_compute; left; reflexivity | reflexivity]).
    destruct Hentry as (p & Hin & Hp). specialize (Hnone p Hin).
    rewrite Hp in Hnone. vm_compute in Hnone. discriminate.
Defined.

(** ** What a request reads *)

Section Reads.
Context {E : Engine}.
Variable env_ADMIN_KEY : option string.

Lemma post_employees_reads (req : Request) (w : World) :
  (reads (snd (post_employees req w)) = reads w
   \/ reads (snd (post_employees req w)) = S (reads w))
  /\ (all_present employee_required (body req) = false
      \/ or_else (isNaN (get "salary" (body req)))
                 (le_zero (get "salary" (body req))) <> Some false ->
      snd (post_employees req w) = w
      /\ (400 <= status (fst (post_employees req w)))%Z).
Proof.
  unfold post_employees. rewrite employee_presence_test.
  destruct (all_present employee_required (body req)); cbn [negb].
  2: { split; [left; reflexivity | intros _; split; [reflexivity | cbn; lia]]. }
  destruct (or_else (isNaN _) (le_zero _)) as [[|] |]; cbn [evaluating];
    try (split; [left; reflexivity | intros _; split; [reflexivity | cbn; lia]]).
  split.
  2: { intros [Hno | Hno]; [discriminate Hno | exfalso; apply Hno; reflexivity]. }
  right. rewrite (readData_pair w).
  destruct (find _ (employees (loaded w)));
    [cbn [snd]; rewrite readData_world; reflexivity |].
  destruct (parseFloat (get "salary" (body req))); cbn [evaluating];
    [| cbn [snd]; rewrite readData_world; reflexivity].
  cbv zeta. unfold writeData. rewrite readData_world. cbn [writable].
  destruct (writable w); reflexivity.
Qed.

Lemma post_payrolls_reads (req : Request) (w : World) :
  (reads (snd (post_payrolls req w)) = reads w
   \/ reads (snd (post_payrolls req w)) = S (reads w))
  /\ (all_present payroll_required (body req) = false
      \/ or_else (isNaN (get "gross_pay" (body req)))
                 (le_zero (get "gross_pay" (body req))) <> Some false
      \/ or_else (isNaN (default_to (JNum 0) (get "deductions" (body req))))
                 (lt_zero (default_to (JNum 0) (get "deductions" (body req))))
         <> Some false ->
      snd (post_payrolls req w) = w
      /\ (400 <= status (fst (post_payrolls req w)))%Z).
Proof.
  unfold post_payrolls. rewrite payroll_presence_test.
  destruct (all_present payroll_required (body req)); cbn [negb].
  2: { split; [left; reflexivity | intros _; split; [reflexivity | cbn; lia]]. }
  destruct (or_else (isNaN _) (le_zero _)) as [[|] |]; cbn [evaluating];
    try (split; [left; reflexivity | intros _; split; [reflexivity | cbn; lia]]).
  destruct (or_else (isNaN _) (lt_zero _)) as [[|] |]; cbn [evaluating];
    try (split; [left; reflexivity | intros _; split; [reflexivity | cbn; lia]]).
  split.
  2: { intros [Hno | [Hno | Hno]];
         [discriminate Hno | exfalso; apply Hno; reflexivity
          | exfalso; apply Hno; reflexivity]. }
  right. rewrite (readData_pair w).
  destruct (find_may_throw _ (employees (loaded w))) as [[emp |] |];
    cbn [evaluating]; try (cbn [snd]; rewrite readData_world; reflexivity).
  destruct (parseFloat (get "gross_pay" (body req))); cbn [evaluating];
    [| cbn [snd]; rewrite readData_world; reflexivity].
  destruct (parseFloat (default_to _ _)); cbn [evaluating];
    [| cbn [snd]; rewrite readData_world; reflexivity].
  destruct (parseInt (get "employee_id" (body req))); cbn [evaluating];
    [| cbn [snd]; rewrite readData_world; reflexivity].
  cbv zeta. unfold writeData. rewrite readData_world. cbn [writable].
  destruct (writable w); reflexivity.
Qed.

Lemma delete_employee_reads (req : Request) (w : World) :
  reads (snd (delete_employee req w)) = S (reads w).
Proof.
  unfold delete_employee. rewrite (readData_pair w).
  destruct (findIndex _ (employees (loaded w)));
    [| cbn [snd]; rewrite readData_world; reflexivity].
  cbv zeta. unfold writeData. rewrite readData_world. cbn [writable].
  destruct (writable w); reflexivity.
Qed.

Lemma public_route_reads (r : Route) (req : Request) (w : World) :
  protected r = false ->
  if match r with GetHealth | Unmatched => true | _ => false end
  then snd (serve env_ADMIN_KEY r req w) = w
  else reads (snd (serve env_ADMIN_KEY r req w)) = S (reads w).
Proof.
  destruct r; cbn [protected serve]; intros Hpublic; try discriminate;
    try reflexivity.
  - unfold get_employees. rewrite (readData_pair w). cbn [snd].
    rewrite readData_world. reflexivity.
  - unfold get_payrolls. rewrite (readData_pair w). cbn [snd].
    rewrite readData_world. reflexivity.
  - unfold get_payslip. rewrite (readData_pair w).
    destruct (find _ (payrolls (loaded w))) as [payroll |]; cbn [snd];
      [destruct (find _ (employees (loaded w))); cbn [snd] |];
      rewrite readData_world; reflexivity.
Qed.

(** X15: a request reads the data file at most once, and the checks that
    need no data come first.  A request that is not let through, or whose
    required fields are not all present, or whose salary, gross pay or
    deductions fail the number test (or cannot be converted), is answered
    with an error status before the file is read: the world is untouched.
    The health route and the unmatched routes never read, a deletion that is
    let through and the three reading routes read exactly once. *)
Theorem serve_reads_at_most_once (r : Route) (req : Request) (w : World) :
  (reads (snd (serve env_ADMIN_KEY r req w)) = reads w
   \/ reads (snd (serve env_ADMIN_KEY r req w)) = S (reads w))
  /\ (protected r = true -> authorized env_ADMIN_KEY req = false ->
      snd (serve env_ADMIN_KEY r req w) = w)
  /\ (r = PostEmployees ->
      all_present employee_required (body req) = false
      \/ or_else (isNaN (get "salary" (body req)))
                 (le_zero (get "salary" (body req))) <> Some false ->
      snd (serve env_ADMIN_KEY r req w) = w
      /\ (400 <= status (fst (serve env_ADMIN_KEY r req w)))%Z)
  /\ (r = PostPayrolls ->
      all_present payroll_required (body req) = false
      \/ or_else (isNaN (get "gross_pay" (body req)))
                 (le_zero (get "gross_pay" (body req))) <> Some false
      \/ or_else (isNaN (default_to (JNum 0) (get "deductions" (body req))))
                 (lt_zero (default_to (JNum 0) (get "deductions" (body req))))
         <> Some false ->
      snd (serve env_ADMIN_KEY r req w) = w
      /\ (400 <= status (fst (serve env_ADMIN_KEY r req w)))%Z)
  /\ (r = DeleteEmployee -> authorized env_ADMIN_KEY req = true ->
      reads (snd (serve env_ADMIN_KEY r req w)) = S (reads w))
  /\ (r = GetEmployees \/ r = GetPayrolls \/ r = GetPayslip ->
      reads (snd (serve env_ADMIN_KEY r req w)) = S (reads w))
  /\ (r = GetHealth \/ r = Unmatched -> snd (serve env_ADMIN_KEY r req w) = w).
Proof.
  split; [| split; [| split; [| split; [| split; [| split]]]]].
  - destruct (protected r) eqn:Hprotected.
    + destruct r; try discriminate; cbn [serve];
        rewrite authenticateAdmin_unfold;
        destruct (authorized env_ADMIN_KEY req); try (left; reflexivity).
      * exact (proj1 (post_employees_reads req w)).
      * exact (proj1 (post_payrolls_reads req w)).
      * right. apply delete_employee_reads.
    + pose proof (public_route_reads r req w Hprotected) as Hreads.
      destruct r; try discriminate;
        (left; rewrite Hreads; reflexivity) || (right; exact Hreads).
  - intros Hprotected Hdenied.
    destruct r; try discriminate; cbn [serve];
      rewrite authenticateAdmin_unfold, Hdenied; reflexivity.
  - intros -> Hinvalid. cbn [serve]. rewrite authenticateAdmin_unfold.
    destruct (authorized env_ADMIN_KEY req);
      [exact (proj2 (post_employees_reads req w) Hinvalid) |].
    split; [reflexivity | cbn; lia].
  - intros -> Hinvalid. cbn [serve]. rewrite authenticateAdmin_unfold.
    destruct (authorized env_ADMIN_KEY req);
      [exact (proj2 (post_payrolls_reads req w) Hinvalid) |].
    split; [reflexivity | cbn; lia].
  - intros -> Hallowed. cbn [serve].
    rewrite authenticateAdmin_unfold, Hallowed. apply delete_employee_reads.
  - intros [-> | [-> | ->]].
    + exact (public_route_reads GetEmployees req w eq_refl).
    + exact (public_route_reads GetPayrolls req w eq_refl).
    + exact (public_route_reads GetPayslip req w eq_refl).
  - intros [-> | ->]; reflexivity.
Qed.
End Reads.

Lemma serve_reads_at_most_once_witness :
  snd (serve (E := Ecma.engine) Example.no_key PostPayrolls
         (Example.request Example.admin
            (("deductions", JNum (-5)) :: Example.january (JNum 1)) "")
         Example.with_payroll)
  = Example.with_payroll
  /\ (400 <= status
               (fst (serve (E := Ecma.engine) Example.no_key PostPayrolls
                       (Example.request Example.admin
                          (("deductions", JNum (-5)) :: Example.january (JNum 1))
                          "")
                       Example.with_payroll)))%Z.
Proof.
  destruct (serve_reads_at_most_once (E := Ecma.engine) Example.no_key
              PostPayrolls
              (Example.request Example.admin
                 (("deductions", JNum (-5)) :: Example.january (JNum 1)) "")
              Example.with_payroll) as (_ & _ & _ & Hinvalid & _).
  apply Hinvalid; [reflexivity |].
  right. right. vm_compute. discriminate.
Defined.

(** ** The number that is tested and the number that is stored *)

Section TestedAndStored.
Context {E : Engine}.




End TestedAndStored.

